(** * logging_with_arcpy: the root-logger registry and the ArcPy sink

    A shallow embedding of [logging_with_arcpy.py].  The module works on the
    root logger of Python's [logging] package: [init_logging] resets it,
    [add_handler] attaches one handler, [flush_and_close_logger] flushes and
    shuts down, [_logging_is_active] tests the registry, and
    [ArcPyLogHandler.emit] forwards a record to one of ArcMap's three message
    functions.

    Python objects are shared and mutable, so handler objects live in a store
    and the registry [root_logger.handlers] holds references into it.  The
    functions of [logging], [os], [socket] and [arcpy] that the module calls
    are written out next to it, as CPython 2.7 (the interpreter ArcMap embeds)
    has them. *)

From Stdlib Require Import ZArith String Ascii List Lia Bool.
From stdpp Require Import base list strings pretty.

Local Open Scope string_scope.
Local Open Scope list_scope.
Local Open Scope Z_scope.

(** ** Strings *)

(** [str.upper()] on a byte string: the letters a..z are moved to A..Z, every
    other byte is kept. *)
Definition upper_ascii (c : ascii) : ascii :=
  let n := nat_of_ascii c in
  if (97 <=? n)%nat && (n <=? 122)%nat then ascii_of_nat (n - 32) else c.

Fixpoint upper (s : string) : string :=
  match s with
  | EmptyString => EmptyString
  | String c s' => String (upper_ascii c) (upper s')
  end.

Definition newline : string := String (ascii_of_nat 10) EmptyString.

(** What [str.format] prints for an argument that is a string or [None]. *)
Definition py_str (v : option string) : string :=
  match v with
  | Some s => s
  | None => "None"
  end.

(** ** Exceptions and the environment *)

Inductive exn : Type :=
  | IOError
  | socket_error
  | IndexError
  | TypeError
  | KeyError
  | ValueError
  | ReferenceError.

(** What the process sees of its surroundings: the variable [USERNAME]
    ([os.getenv] gives [None] when it is unset), the result of
    [socket.gethostname()] (a name, or the exception it raises), and whether
    [open(filename, mode)] succeeds. *)
Record Env : Type := {
  USERNAME : option string;
  gethostname : exn + string;
  can_open : string -> string -> bool
}.

(** [template.format(a, b, ...)] for a template whose only fields are the
    automatically numbered [{}]: each [{}] takes the next argument, and a
    field with no argument left raises [IndexError]. *)
Fixpoint str_format (template : string) (args : list string) : exn + string :=
  match template with
  | EmptyString => inr EmptyString
  | String "{" (String "}" rest) =>
      match args with
      | [] => inl IndexError
      | a :: args' =>
          match str_format rest args' with
          | inr s => inr (a +:+ s)
          | inl e => inl e
          end
      end
  | String c rest =>
      match str_format rest args with
      | inr s => inr (String c s)
      | inl e => inl e
      end
  end.

(** ** Handler objects, records and the logging state *)

Definition ref : Type := nat.

Inductive HandlerClass : Type :=
  | StreamHandlerC
  | FileHandlerC
  | RotatingFileHandlerC
  | ArcPyLogHandlerC.

(** [logging.Formatter(fmt, datefmt)]. *)
Record Formatter : Type := {
  _fmt : string;
  datefmt : option string
}.

(** A handler object.  [stream_open] says that [self.stream] is an open
    stream; [pending] is what was written to the stream and not flushed yet,
    [flushed] what reached the file (or the console). *)
Record Handler : Type := {
  cls : HandlerClass;
  baseFilename : option string;
  mode : string;
  level : Z;
  formatter : option Formatter;
  stream_open : bool;
  pending : list string;
  flushed : list string
}.

Record LogRecord : Type := {
  levelno : Z;
  msg : string;
  args : list string;
  asctime : string
}.

(** ArcMap's tool window has three channels; a call carries a text to one. *)
Inductive Channel : Type :=
  | ErrorChannel
  | WarningChannel
  | MessageChannel.

Definition HostCall : Type := Channel * string.

(** The state of the process: the object store (a reference is an index in
    it; [logging._handlerList] lists every handler ever built, which is the
    whole store), the root logger's [handlers] and [level], and what ArcMap
    received. *)
Record LogState : Type := {
  objs : list Handler;
  handlers : list ref;
  root_level : Z;
  arcpy_log : list HostCall
}.

Definition set_objs (o : list Handler) (s : LogState) : LogState :=
  {| objs := o; handlers := handlers s; root_level := root_level s;
     arcpy_log := arcpy_log s |}.

Definition set_handlers (l : list ref) (s : LogState) : LogState :=
  {| objs := objs s; handlers := l; root_level := root_level s;
     arcpy_log := arcpy_log s |}.

Definition set_root_level (z : Z) (s : LogState) : LogState :=
  {| objs := objs s; handlers := handlers s; root_level := z;
     arcpy_log := arcpy_log s |}.

Definition set_arcpy_log (l : list HostCall) (s : LogState) : LogState :=
  {| objs := objs s; handlers := handlers s; root_level := root_level s;
     arcpy_log := l |}.

Definition set_level (z : Z) (h : Handler) : Handler :=
  {| cls := cls h; baseFilename := baseFilename h; mode := mode h; level := z;
     formatter := formatter h; stream_open := stream_open h;
     pending := pending h; flushed := flushed h |}.

Definition set_formatter (f : Formatter) (h : Handler) : Handler :=
  {| cls := cls h; baseFilename := baseFilename h; mode := mode h;
     level := level h; formatter := Some f; stream_open := stream_open h;
     pending := pending h; flushed := flushed h |}.

(** ** Computations that read and change the state, and may raise *)

Inductive Res (A : Type) : Type :=
  | Ok (a : A) (s : LogState)
  | Raise (e : exn) (s : LogState).
Arguments Ok {A} a s.
Arguments Raise {A} e s.

Definition M (A : Type) : Type := LogState -> Res A.

Definition ret {A} (a : A) : M A := fun s => Ok a s.

Definition raise {A} (e : exn) : M A := fun s => Raise e s.

Definition bind {A B} (c : M A) (k : A -> M B) : M B :=
  fun s =>
    match c s with
    | Ok a s' => k a s'
    | Raise e s' => Raise e s'
    end.

Notation "'let!' x ':=' c 'in' k" := (bind c (fun x => k))
  (at level 10, x pattern, c at level 100, k at level 200).

(** [try: c  except: h] with a bare [except], which catches everything; the
    changes [c] made before it raised stay. *)
Definition try_except {A} (c : M A) (h : M A) : M A :=
  fun s =>
    match c s with
    | Ok a s' => Ok a s'
    | Raise _ s' => h s'
    end.

(** [try: c  except (IOError, ValueError): pass]. *)
Definition try_pass_io (c : M unit) : M unit :=
  fun s =>
    match c s with
    | Ok a s' => Ok a s'
    | Raise IOError s' => Ok tt s'
    | Raise ValueError s' => Ok tt s'
    | Raise e s' => Raise e s'
    end.

Definition lift {A} (r : exn + A) : M A :=
  match r with
  | inr a => ret a
  | inl e => raise e
  end.

(** The state a computation leaves, whether it returned or raised. *)
Definition state_of {A} (r : Res A) : LogState :=
  match r with
  | Ok _ s => s
  | Raise _ s => s
  end.

Fixpoint for_each {A} (l : list A) (body : A -> M unit) : M unit :=
  match l with
  | [] => ret tt
  | x :: l' => let! _ := body x in for_each l' body
  end.

(** [range(start, stop, -1)]. *)
Definition range_down (start stop : Z) : list Z :=
  map (fun k => start - Z.of_nat k) (seq 0 (Z.to_nat (start - stop))).

(** [l[i]] for a Python list: a negative index counts from the end, an index
    out of range raises [IndexError]. *)
Definition py_index {A} (l : list A) (i : Z) : exn + A :=
  let n := Z.of_nat (length l) in
  let j := if i <? 0 then i + n else i in
  if (0 <=? j) && (j <? n) then
    match l !! Z.to_nat j with
    | Some x => inr x
    | None => inl IndexError
    end
  else inl IndexError.

(** [list.remove(x)] once [x in list] is known: the first occurrence goes. *)
Fixpoint remove_first (x : ref) (l : list ref) : list ref :=
  match l with
  | [] => []
  | y :: l' => if decide (y = x) then l' else y :: remove_first x l'
  end.

(** Objects of the store. *)
Definition alloc (h : Handler) : M ref :=
  fun s => Ok (length (objs s)) (set_objs (objs s ++ [h]) s).

Definition deref (r : ref) : M Handler :=
  fun s =>
    match objs s !! r with
    | Some h => Ok h s
    | None => Raise ReferenceError s
    end.

Definition update (r : ref) (f : Handler -> Handler) : M unit :=
  fun s =>
    match objs s !! r with
    | Some h => Ok tt (set_objs (<[r := f h]> (objs s)) s)
    | None => Raise ReferenceError s
    end.

Definition get_handlers : M (list ref) := fun s => Ok (handlers s) s.

(** ** The parts of [logging] the module calls (CPython 2.7) *)

Module logging.

Definition NOTSET : Z := 0.
Definition DEBUG : Z := 10.
Definition INFO : Z := 20.
Definition WARNING : Z := 30.
Definition ERROR : Z := 40.
Definition CRITICAL : Z := 50.

Definition BASIC_FORMAT : string := "%(levelname)s:%(name)s:%(message)s".

(** [Formatter.__init__]: an empty template stands for ["%(message)s"]. *)
Definition mkFormatter (fmt : string) (dfmt : option string) : Formatter :=
  {| _fmt := if decide (fmt = "") then "%(message)s" else fmt;
     datefmt := dfmt |}.

(** [logging._defaultFormatter = Formatter()]. *)
Definition _defaultFormatter : Formatter := mkFormatter "" None.

(** [StreamHandler(None)]: a handler on [sys.stderr]. *)
Definition StreamHandler : M ref :=
  alloc {| cls := StreamHandlerC; baseFilename := None; mode := "";
           level := NOTSET; formatter := None; stream_open := true;
           pending := []; flushed := [] |}.

(** The constructor of a handler that opens [filename] at once
    ([delay=False]); what [open] raises is not caught. *)
Definition open_handler (c : HandlerClass) (env : Env)
    (filename fmode : string) : M ref :=
  if can_open env filename fmode then
    alloc {| cls := c; baseFilename := Some filename; mode := fmode;
             level := NOTSET; formatter := None; stream_open := true;
             pending := []; flushed := [] |}
  else raise IOError.

(** [FileHandler(filename, mode=mode, encoding=None, delay=False)]. *)
Definition FileHandler : Env -> string -> string -> M ref :=
  open_handler FileHandlerC.

Definition setLevel (h : ref) (lvl : Z) : M unit := update h (set_level lvl).

Definition setFormatter (h : ref) (f : Formatter) : M unit :=
  update h (set_formatter f).

(** [StreamHandler.flush]: what is pending on an open stream is delivered. *)
Definition flush_obj (h : Handler) : Handler :=
  if stream_open h then
    {| cls := cls h; baseFilename := baseFilename h; mode := mode h;
       level := level h; formatter := formatter h; stream_open := true;
       pending := []; flushed := flushed h ++ pending h |}
  else h.

Definition flush (h : ref) : M unit := update h flush_obj.

(** [close]: a file handler with an open stream flushes it and drops it;
    a plain stream handler keeps [sys.stderr]. *)
Definition close_obj (h : Handler) : Handler :=
  match cls h with
  | StreamHandlerC => h
  | _ =>
      if stream_open h then
        {| cls := cls h; baseFilename := baseFilename h; mode := mode h;
           level := level h; formatter := formatter h; stream_open := false;
           pending := []; flushed := flushed h ++ pending h |}
      else h
  end.

Definition close (h : ref) : M unit := update h close_obj.

(** [Logger.addHandler]: [if not (hdlr in self.handlers): append]. *)
Definition addHandler (hdlr : ref) : M unit :=
  fun s =>
    if bool_decide (hdlr ∈ handlers s) then Ok tt s
    else Ok tt (set_handlers (handlers s ++ [hdlr]) s).

(** [Logger.removeHandler]: [if hdlr in self.handlers: remove]. *)
Definition removeHandler (hdlr : ref) : M unit :=
  fun s =>
    if bool_decide (hdlr ∈ handlers s)
    then Ok tt (set_handlers (remove_first hdlr (handlers s)) s)
    else Ok tt s.

Definition setLevel_root (lvl : Z) : M unit :=
  fun s => Ok tt (set_root_level lvl s).

(** [basicConfig(level=lvl)]: does something only when the root logger has
    no handler; then it attaches a console handler and sets the level. *)
Definition basicConfig (lvl : Z) : M unit :=
  let! hs := get_handlers in
  if decide (length hs = 0%nat) then
    let! hdlr := StreamHandler in
    let! _ := setFormatter hdlr (mkFormatter BASIC_FORMAT None) in
    let! _ := addHandler hdlr in
    setLevel_root lvl
  else ret tt.

(** [shutdown()]: every handler ever built, last one first, is flushed and
    closed; [IOError] and [ValueError] are passed over.  The root logger's
    [handlers] list is not looked at. *)
Definition shutdown : M unit :=
  fun s =>
    for_each (rev (seq 0 (length (objs s))))
             (fun h => try_pass_io (let! _ := flush h in close h)) s.

End logging.

(** ** [arcpy]: the three message functions of the tool window *)

Module arcpy.

Definition send (c : Channel) (m : string) : M unit :=
  fun s => Ok tt (set_arcpy_log (arcpy_log s ++ [(c, m)]) s).

Definition AddError : string -> M unit := send ErrorChannel.
Definition AddWarning : string -> M unit := send WarningChannel.
Definition AddMessage : string -> M unit := send MessageChannel.

End arcpy.

(** ** [logging_with_arcpy] *)

(** The default of the [datefmt] parameter of both functions. *)
Definition default_datefmt : string := "%d-%m-%Y %H:%M".

(** ["%(asctime)s {} {} %(message)s".format(os.getenv('USERNAME'),
    socket.gethostname().upper())], the default template of lines 67 and 92. *)
Definition default_fmt (env : Env) : M string :=
  let user := USERNAME env in
  let! host := lift (gethostname env) in
  lift (str_format "%(asctime)s {} {} %(message)s" [py_str user; upper host]).

(** [add_handler(h, level, fmt, datefmt)]. *)
Definition add_handler (env : Env) (h : ref) (level : Z) (fmt datefmt : string)
    : M unit :=
  let! fmt := (if decide (fmt = "") then default_fmt env else ret fmt) in
  let f := logging.mkFormatter fmt (Some datefmt) in
  let! _ := logging.setLevel h level in
  let! _ := logging.setFormatter h f in
  logging.addHandler h.

(** [init_logging(filename, level, fmt, datefmt, mode)].  The template it
    computes first is a local name that nothing reads afterwards: the call of
    [add_handler] on the last line passes the handler and [level] only, so
    [add_handler] runs with its own defaults for [fmt] and [datefmt]. *)
Definition init_logging (env : Env) (filename : string) (level : Z)
    (fmt datefmt mode : string) : M unit :=
  let! fmt := (if decide (fmt = "") then default_fmt env else ret fmt) in
  let! _ := logging.basicConfig logging.NOTSET in
  let! hs := get_handlers in
  let! _ := for_each (range_down (Z.of_nat (length hs) - 1) (-1))
              (fun i =>
                 let! hs := get_handlers in
                 let! h := lift (py_index hs i) in
                 logging.removeHandler h) in
  let! h := logging.FileHandler env filename mode in
  add_handler env h level "" default_datefmt.

(** [flush_and_close_logger()]. *)
Definition flush_and_close_logger : M unit :=
  let! hs := get_handlers in
  let! _ := for_each hs logging.flush in
  logging.shutdown.

(** [_logging_is_active()]: [len(logging.getLogger().handlers) > 0]. *)
Definition _logging_is_active : M bool :=
  let! hs := get_handlers in
  ret (bool_decide (0 < length hs)%nat).

Module ArcPyLogHandler.

Section WithFormatter.

(** [Formatter.format(record)] of the library: the text, or the exception the
    record's message, arguments or the template make it raise. *)
Variable Formatter_format : Formatter -> LogRecord -> exn + string.

(** [Handler.format], inherited: the handler's formatter, or the library's
    default one when none is set. *)
Definition format (self : ref) (record : LogRecord) : M string :=
  let! h := deref self in
  let fmt :=
    match formatter h with
    | Some f => f
    | None => logging._defaultFormatter
    end in
  lift (Formatter_format fmt record).

(** [stream.write(line)] on the handler's stream. *)
Definition write_obj (line : string) (h : Handler) : Handler :=
  {| cls := cls h; baseFilename := baseFilename h; mode := mode h;
     level := level h; formatter := formatter h; stream_open := stream_open h;
     pending := pending h ++ [line]; flushed := flushed h |}.

(** [FileHandler.emit] opens the file again when the stream was dropped. *)
Definition reopen (env : Env) (self : ref) : M unit :=
  let! h := deref self in
  if stream_open h then ret tt
  else if can_open env (py_str (baseFilename h)) (mode h) then
    update self (fun h =>
      {| cls := cls h; baseFilename := baseFilename h; mode := mode h;
         level := level h; formatter := formatter h; stream_open := true;
         pending := pending h; flushed := flushed h |})
  else raise IOError.

(** The [emit] of the base class (with [maxBytes = 0], so without rollover),
    which the subclass overrides and never calls: the formatted line goes to
    the handler's stream, which is then flushed; a failure is reported on the
    console and passed over. *)
Definition base_emit (env : Env) (self : ref) (record : LogRecord) : M unit :=
  try_except
    (let! _ := reopen env self in
     let! my_msg := format self record in
     let! _ := update self (write_obj (my_msg +:+ newline)) in
     logging.flush self)
    (ret tt).

(** [emit(self, record)], lines 129 to 153. *)
Definition emit (self : ref) (record : LogRecord) : M unit :=
  let! my_msg := try_except (format self record) (ret (msg record)) in
  if logging.ERROR <=? levelno record then arcpy.AddError my_msg
  else if logging.WARNING <=? levelno record then arcpy.AddWarning my_msg
  else arcpy.AddMessage my_msg.

End WithFormatter.

(** The constructor is the base class's: it opens the file it is given. *)
Definition new : Env -> string -> string -> M ref :=
  logging.open_handler ArcPyLogHandlerC.

End ArcPyLogHandler.

(** ** A formatter to run the examples with

    [Formatter.format] for templates and messages whose conversions are
    [%s] and [%%]: the message is [msg % args] when there are arguments, and
    the template is then filled from the record's attributes [message],
    [asctime], [levelname], [name] and [msg]. *)

Module PercentStyle.

(** [msg % args] with positional [%s]. *)
Fixpoint percent_args (s : string) (a : list string) : exn + string :=
  match s with
  | EmptyString =>
      match a with
      | [] => inr EmptyString
      | _ :: _ => inl TypeError
      end
  | String "%" (String "s" rest) =>
      match a with
      | [] => inl TypeError
      | x :: a' =>
          match percent_args rest a' with
          | inr r => inr (x +:+ r)
          | inl e => inl e
          end
      end
  | String "%" (String "%" rest) =>
      match percent_args rest a with
      | inr r => inr (String "%" r)
      | inl e => inl e
      end
  | String "%" _ => inl ValueError
  | String c rest =>
      match percent_args rest a with
      | inr r => inr (String c r)
      | inl e => inl e
      end
  end.

(** [LogRecord.getMessage]. *)
Definition getMessage (record : LogRecord) : exn + string :=
  match args record with
  | [] => inr (msg record)
  | _ :: _ => percent_args (msg record) (args record)
  end.

Definition getLevelName (lvl : Z) : string :=
  if lvl =? logging.CRITICAL then "CRITICAL"
  else if lvl =? logging.ERROR then "ERROR"
  else if lvl =? logging.WARNING then "WARNING"
  else if lvl =? logging.INFO then "INFO"
  else if lvl =? logging.DEBUG then "DEBUG"
  else if lvl =? logging.NOTSET then "NOTSET"
  else "Level " +:+ pretty lvl.

(** Where the scan of a template stands: in plain text, after a [%], inside
    the key of [%(key)], or after its closing bracket. *)
Inductive scan : Type :=
  | Text
  | Percent
  | Key (k : string)
  | Conv (k : string).

(** [template % record.__dict__]. *)
Fixpoint percent_dict (st : scan) (s : string) (d : string -> option string)
    : exn + string :=
  match s with
  | EmptyString =>
      match st with
      | Text => inr EmptyString
      | _ => inl ValueError
      end
  | String c rest =>
      match st with
      | Text =>
          if decide (c = "%"%char) then percent_dict Percent rest d
          else
            match percent_dict Text rest d with
            | inr r => inr (String c r)
            | inl e => inl e
            end
      | Percent =>
          if decide (c = "("%char) then percent_dict (Key EmptyString) rest d
          else if decide (c = "%"%char) then
            match percent_dict Text rest d with
            | inr r => inr (String c r)
            | inl e => inl e
            end
          else inl TypeError
      | Key k =>
          if decide (c = ")"%char) then percent_dict (Conv k) rest d
          else percent_dict (Key (k +:+ String c EmptyString)) rest d
      | Conv k =>
          if decide (c = "s"%char) then
            match d k with
            | None => inl KeyError
            | Some v =>
                match percent_dict Text rest d with
                | inr r => inr (v +:+ r)
                | inl e => inl e
                end
            end
          else inl ValueError
      end
  end.

Definition attributes (record : LogRecord) (message : string) (k : string)
    : option string :=
  if decide (k = "message") then Some message
  else if decide (k = "asctime") then Some (asctime record)
  else if decide (k = "levelname") then Some (getLevelName (levelno record))
  else if decide (k = "name") then Some "root"
  else if decide (k = "msg") then Some (msg record)
  else None.

Definition Formatter_format (f : Formatter) (record : LogRecord)
    : exn + string :=
  match getMessage record with
  | inl e => inl e
  | inr message => percent_dict Text (_fmt f) (attributes record message)
  end.

End PercentStyle.

(** ** Sample environments, states and records *)

Definition alice_box1 : Env :=
  {| USERNAME := Some "alice"; gethostname := inr "box1";
     can_open := fun _ _ => true |}.

(** No [USERNAME] in the environment. *)
Definition no_username : Env :=
  {| USERNAME := None; gethostname := inr "box1";
     can_open := fun _ _ => true |}.

(** [socket.gethostname()] raises. *)
Definition no_hostname : Env :=
  {| USERNAME := Some "alice"; gethostname := inl socket_error;
     can_open := fun _ _ => true |}.

(** The logging package as imported: no handler, root level [WARNING]. *)
Definition pristine : LogState :=
  {| objs := []; handlers := []; root_level := logging.WARNING;
     arcpy_log := [] |}.

Definition run {A} (c : M A) (s : LogState) : LogState := state_of (c s).

(** The object [init_logging] leaves attached. *)
Definition file_handler_obj (filename fmode : string) (lvl : Z) (f : Formatter)
    : Handler :=
  {| cls := FileHandlerC; baseFilename := Some filename; mode := fmode;
     level := lvl; formatter := Some f; stream_open := true;
     pending := []; flushed := [] |}.

(** The text of the default template for a user and a host name. *)
Definition default_template (user : option string) (host : string) : string :=
  "%(asctime)s " +:+ (py_str user +:+ (" " +:+ (upper host +:+ " %(message)s"))).

#[global] Instance Channel_eq_dec : EqDecision Channel.
Proof. solve_decision. Defined.

(** How many calls of a trace went to a channel. *)
Definition calls_to (c : Channel) (l : list HostCall) : nat :=
  length (filter (fun x => x.1 = c) l).

(** One unattached ArcPy handler in the store. *)
Definition one_unattached : LogState :=
  run (ArcPyLogHandler.new alice_box1 "arc.log" "a") pristine.

(** The state after one [init_logging] with the default arguments. *)
Definition initialised : LogState :=
  run (init_logging alice_box1 "log.txt" logging.INFO "" default_datefmt "a")
      pristine.

(** Every reference of the registry is an object of the store. *)
Definition wf (s : LogState) : bool :=
  forallb (fun r => (r <? length (objs s))%nat) (handlers s).

(** A computation that leaves the registry and the size of the store alone,
    whether it returns or raises. *)
Definition keeps {A} (c : M A) : Prop :=
  forall s,
    handlers (state_of (c s)) = handlers s
    /\ length (objs (state_of (c s))) = length (objs s).

(** What [shutdown] does to one handler object: flush, then close. *)
Definition shut_obj (o : Handler) : Handler :=
  logging.close_obj (logging.flush_obj o).

(** The registry refers to objects of the store and lists none twice. *)
Definition registry_ok (s : LogState) : Prop :=
  wf s = true /\ NoDup (handlers s).

(** The channel [emit] picks for a level, and the call it makes for a
    record in a state. *)
Definition channel_of (lvl : Z) : Channel :=
  if logging.ERROR <=? lvl then ErrorChannel
  else if logging.WARNING <=? lvl then WarningChannel
  else MessageChannel.

Definition call_of (F : Formatter -> LogRecord -> exn + string) (self : ref)
    (s : LogState) (record : LogRecord) : HostCall :=
  (channel_of (levelno record),
   match ArcPyLogHandler.format F self record s with
   | Ok m _ => m
   | Raise _ _ => msg record
   end).

(** A tool run with both sinks: the log file, then the ArcPy handler. *)
Definition file_and_arcpy (env : Env) (logfile arcfile : string)
    (lvl arclvl : Z) : M ref :=
  let! _ := init_logging env logfile lvl "" default_datefmt "a" in
  let! h := ArcPyLogHandler.new env arcfile "a" in
  let! _ := add_handler env h arclvl "" default_datefmt in
  ret h.

(** An ArcPy handler from construction to the end of the run. *)
Definition arcpy_session (F : Formatter -> LogRecord -> exn + string)
    (env : Env) (arcfile fmode : string) (lvl : Z) (fmt dfmt : string)
    (records : list LogRecord) : M ref :=
  let! h := ArcPyLogHandler.new env arcfile fmode in
  let! _ := add_handler env h lvl fmt dfmt in
  let! _ := for_each records (ArcPyLogHandler.emit F h) in
  let! _ := flush_and_close_logger in
  ret h.

(** * Properties *)

(** ** Sequencing *)

Lemma bind_Ok {A B} (c : M A) (k : A -> M B) (s s' : LogState) (a : A) :
  c s = Ok a s' -> bind c k s = k a s'.
Proof. intros H. unfold bind. rewrite H. reflexivity. Qed.

Lemma bind_Raise {A B} (c : M A) (k : A -> M B) (s s' : LogState) (e : exn) :
  c s = Raise e s' -> bind c k s = Raise e s'.
Proof. intros H. unfold bind. rewrite H. reflexivity. Qed.

(** ** Lists, ranges and the removal loop *)

Lemma range_down_succ (n : nat) :
  range_down (Z.of_nat (S n) - 1) (-1)
  = Z.of_nat n :: range_down (Z.of_nat n - 1) (-1).
Proof.
  unfold range_down.
  replace (Z.to_nat (Z.of_nat (S n) - 1 - -1)) with (S n) by lia.
  replace (Z.to_nat (Z.of_nat n - 1 - -1)) with n by lia.
  cbn [seq map]. f_equal; [lia |].
  rewrite <- seq_shift, map_map. apply map_ext. intros k. lia.
Qed.

Lemma range_down_zero : range_down (Z.of_nat 0 - 1) (-1) = [].
Proof. reflexivity. Qed.

Lemma py_index_nat {A} (l : list A) (i : nat) (x : A) :
  l !! i = Some x -> py_index l (Z.of_nat i) = inr x.
Proof.
  intros H. pose proof (lookup_lt_Some _ _ _ H) as Hlt.
  unfold py_index.
  destruct (Z.ltb_spec (Z.of_nat i) 0) as [Hneg | _]; [lia |].
  destruct (Z.leb_spec 0 (Z.of_nat i)) as [_ | Hneg]; [| lia].
  destruct (Z.ltb_spec (Z.of_nat i) (Z.of_nat (length l))) as [_ | Hge]; [| lia].
  cbn [andb]. rewrite Nat2Z.id, H. reflexivity.
Qed.

Lemma remove_first_length (x : ref) (l : list ref) :
  x ∈ l -> S (length (remove_first x l)) = length l.
Proof.
  induction l as [| y l IH]; intros Hin.
  - inversion Hin.
  - cbn [remove_first]. destruct (decide (y = x)) as [-> | Hne].
    + reflexivity.
    + cbn [length]. f_equal. apply IH.
      apply elem_of_cons in Hin as [-> | Hin]; [congruence | exact Hin].
Qed.

Lemma remove_first_not_in (x : ref) (l : list ref) (y : ref) :
  y ∈ remove_first x l -> y ∈ l.
Proof.
  induction l as [| z l IH]; cbn [remove_first]; [tauto |].
  destruct (decide (z = x)) as [-> | Hne]; intros H.
  - apply elem_of_cons. right. exact H.
  - apply elem_of_cons in H as [-> | H]; apply elem_of_cons; [left | right]; auto.
Qed.

Lemma set_handlers_twice (l1 l2 : list ref) (s : LogState) :
  set_handlers l1 (set_handlers l2 s) = set_handlers l1 s.
Proof. reflexivity. Qed.

(** One turn of the loop of lines 79 and 80 at the last index. *)
Lemma remove_last_turn (n : nat) (s : LogState) :
  length (handlers s) = S n ->
  exists l,
    (let! hs := get_handlers in
     let! h := lift (py_index hs (Z.of_nat n)) in
     logging.removeHandler h) s = Ok tt (set_handlers l s)
    /\ length l = n.
Proof.
  intros Hlen.
  destruct (lookup_lt_is_Some_2 (handlers s) n) as [x Hx]; [lia |].
  exists (remove_first x (handlers s)).
  unfold bind, get_handlers. rewrite (py_index_nat _ _ _ Hx). cbn [lift ret].
  unfold logging.removeHandler.
  assert (Hin : x ∈ handlers s) by (apply list_elem_of_lookup; eauto).
  rewrite bool_decide_eq_true_2 by exact Hin.
  split; [reflexivity |].
  pose proof (remove_first_length x (handlers s) Hin). lia.
Qed.

(** The loop empties the registry, whatever it holds. *)
Lemma removal_loop_empties (n : nat) : forall s : LogState,
  length (handlers s) = n ->
  for_each (range_down (Z.of_nat n - 1) (-1))
    (fun i =>
       let! hs := get_handlers in
       let! h := lift (py_index hs i) in
       logging.removeHandler h) s
  = Ok tt (set_handlers [] s).
Proof.
  induction n as [| n IH]; intros s Hlen.
  - rewrite range_down_zero. cbn [for_each ret].
    destruct s as [o hs rl al]. cbn in Hlen.
    destruct hs; [reflexivity | discriminate].
  - rewrite range_down_succ. cbn [for_each].
    destruct (remove_last_turn n s Hlen) as (l & Hstep & Hl).
    unfold bind at 1. rewrite Hstep.
    rewrite (IH (set_handlers l s)) by exact Hl.
    rewrite set_handlers_twice. reflexivity.
Qed.

(** ** The default template *)

Lemma default_fmt_ok (env : Env) (hn : string) (s : LogState) :
  gethostname env = inr hn ->
  default_fmt env s = Ok (default_template (USERNAME env) hn) s.
Proof.
  intros H. unfold default_fmt, bind. rewrite H. reflexivity.
Qed.

Lemma default_fmt_raises (env : Env) (e : exn) (s : LogState) :
  gethostname env = inl e -> default_fmt env s = Raise e s.
Proof.
  intros H. unfold default_fmt, bind. rewrite H. reflexivity.
Qed.

Lemma upper_example : upper "box1" = "BOX1".
Proof. reflexivity. Qed.

Lemma upper_length (s : string) : String.length (upper s) = String.length s.
Proof. induction s as [| c s IH]; cbn; congruence. Qed.

(** ** Objects of the store *)

Lemma update_ok (r : ref) (f : Handler -> Handler) (o : Handler) (s : LogState) :
  objs s !! r = Some o ->
  update r f s = Ok tt (set_objs (<[r := f o]> (objs s)) s).
Proof. intros H. unfold update. rewrite H. reflexivity. Qed.

Lemma alloc_lookup (o : Handler) (s : LogState) :
  objs (set_objs (objs s ++ [o]) s) !! length (objs s) = Some o.
Proof. cbn. apply list_lookup_middle. reflexivity. Qed.

Lemma insert_last (o1 : list Handler) (o o' : Handler) :
  <[length o1 := o']> (o1 ++ [o]) = o1 ++ [o'].
Proof.
  rewrite insert_app_r_alt by lia. rewrite Nat.sub_diag. reflexivity.
Qed.

(** ** [add_handler] *)

Lemma add_handler_ok (env : Env) (h : ref) (lvl : Z) (fmt dfmt : string)
    (s : LogState) (o : Handler) (hn : string) :
  objs s !! h = Some o ->
  (fmt = "" -> gethostname env = inr hn) ->
  add_handler env h lvl fmt dfmt s
  = Ok tt
      {| objs :=
           <[h := set_formatter
                    (logging.mkFormatter
                       (if decide (fmt = "")
                        then default_template (USERNAME env) hn else fmt)
                       (Some dfmt))
                    (set_level lvl o)]> (objs s);
         handlers :=
           if bool_decide (h ∈ handlers s) then handlers s
           else handlers s ++ [h];
         root_level := root_level s;
         arcpy_log := arcpy_log s |}.
Proof.
  intros Ho Hfmt. unfold add_handler.
  assert (Hlt : (h < length (objs s))%nat) by (eapply lookup_lt_Some; eauto).
  assert (Hres : (if decide (fmt = "") then default_fmt env else ret fmt) s
                 = Ok (if decide (fmt = "")
                       then default_template (USERNAME env) hn else fmt) s).
  { destruct (decide (fmt = "")) as [E | E]; [| reflexivity].
    apply default_fmt_ok. auto. }
  unfold bind at 1. rewrite Hres.
  unfold bind at 1. unfold logging.setLevel. rewrite (update_ok _ _ _ _ Ho).
  unfold bind at 1. unfold logging.setFormatter.
  rewrite (update_ok _ _ (set_level lvl o)).
  2: { cbn. apply list_lookup_insert_eq. exact Hlt. }
  cbn [objs set_objs]. rewrite list_insert_insert_eq.
  unfold logging.addHandler. cbn [handlers set_objs].
  destruct (bool_decide (h ∈ handlers s)); reflexivity.
Qed.

Lemma add_handler_raises (env : Env) (h : ref) (lvl : Z) (dfmt : string)
    (s : LogState) (e : exn) :
  gethostname env = inl e ->
  add_handler env h lvl "" dfmt s = Raise e s.
Proof.
  intros H. unfold add_handler, bind. cbn. rewrite (default_fmt_raises _ _ _ H).
  reflexivity.
Qed.

(** ** [basicConfig] and [init_logging] *)

Lemma basicConfig_ok (lvl : Z) (s : LogState) :
  exists s1,
    logging.basicConfig lvl s = Ok tt s1
    /\ arcpy_log s1 = arcpy_log s
    /\ (exists extra, objs s1 = objs s ++ extra).
Proof.
  unfold logging.basicConfig, bind, get_handlers.
  destruct (decide (length (handlers s) = 0%nat)) as [E | E].
  - unfold logging.StreamHandler, alloc, logging.setFormatter.
    erewrite update_ok by apply alloc_lookup.
    cbn [objs set_objs]. rewrite insert_last.
    unfold logging.addHandler.
    match goal with
    | |- context [bool_decide ?P] => destruct (bool_decide P)
    end; eexists; (split; [reflexivity |]); cbn; eauto.
  - exists s. split; [reflexivity |]. split; [reflexivity |].
    exists []. rewrite app_nil_r. reflexivity.
Qed.

(** What a call of [init_logging] does when the host name can be read and
    the file can be opened: it returns, the registry holds one reference, to
    an object built by this call, and the objects of before are as they
    were.  The template and date format of the new handler do not depend on
    the arguments [fmt] and [datefmt]. *)
Lemma init_logging_ok (env : Env) (filename : string) (lvl : Z)
    (fmt dfmt fmode : string) (s : LogState) (hn : string) :
  gethostname env = inr hn ->
  can_open env filename fmode = true ->
  exists s' h,
    init_logging env filename lvl fmt dfmt fmode s = Ok tt s'
    /\ handlers s' = [h]
    /\ (length (objs s) <= h)%nat
    /\ objs s' !! h
       = Some (file_handler_obj filename fmode lvl
                 (logging.mkFormatter (default_template (USERNAME env) hn)
                    (Some default_datefmt)))
    /\ (forall r o, objs s !! r = Some o -> objs s' !! r = Some o)
    /\ arcpy_log s' = arcpy_log s.
Proof.
  intros Hhost Hopen. unfold init_logging.
  assert (Hres : exists t, (if decide (fmt = "") then default_fmt env else ret fmt) s
                 = Ok t s).
  { destruct (decide (fmt = "")); eexists; [apply default_fmt_ok; eauto | reflexivity]. }
  destruct Hres as [t Hres]. rewrite (bind_Ok _ _ _ _ _ Hres).
  destruct (basicConfig_ok logging.NOTSET s) as (s1 & Hbc & Hlog & extra & Hobjs).
  rewrite (bind_Ok _ _ _ _ _ Hbc).
  rewrite (bind_Ok _ _ s1 s1 (handlers s1)) by reflexivity.
  rewrite (bind_Ok _ _ _ _ _ (removal_loop_empties _ s1 eq_refl)).
  erewrite bind_Ok.
  2: { unfold logging.FileHandler, logging.open_handler. rewrite Hopen.
       reflexivity. }
  erewrite add_handler_ok with (hn := hn); [| apply alloc_lookup | auto].
  eexists. exists (length (objs s1)). split; [reflexivity |].
  cbn [handlers objs set_objs set_handlers]. rewrite insert_last.
  split; [reflexivity |].
  split; [rewrite Hobjs, length_app; lia |].
  split; [apply list_lookup_middle; reflexivity |].
  split; [| exact Hlog].
  intros r o Hr. apply lookup_app_l_Some. rewrite Hobjs.
  apply lookup_app_l_Some. exact Hr.
Qed.

(** When the file cannot be opened the exception of [open] leaves
    [init_logging], after the registry was emptied. *)
Lemma init_logging_open_fails (env : Env) (filename : string) (lvl : Z)
    (fmt dfmt fmode : string) (s : LogState) (hn : string) :
  gethostname env = inr hn ->
  can_open env filename fmode = false ->
  exists s',
    init_logging env filename lvl fmt dfmt fmode s = Raise IOError s'
    /\ handlers s' = [].
Proof.
  intros Hhost Hopen. unfold init_logging.
  assert (Hres : exists t, (if decide (fmt = "") then default_fmt env else ret fmt) s
                 = Ok t s).
  { destruct (decide (fmt = "")); eexists; [apply default_fmt_ok; eauto | reflexivity]. }
  destruct Hres as [t Hres]. rewrite (bind_Ok _ _ _ _ _ Hres).
  destruct (basicConfig_ok logging.NOTSET s) as (s1 & Hbc & _).
  rewrite (bind_Ok _ _ _ _ _ Hbc).
  rewrite (bind_Ok _ _ s1 s1 (handlers s1)) by reflexivity.
  rewrite (bind_Ok _ _ _ _ _ (removal_loop_empties _ s1 eq_refl)).
  erewrite bind_Raise.
  2: { unfold logging.FileHandler, logging.open_handler. rewrite Hopen.
       reflexivity. }
  eexists. split; reflexivity.
Qed.

(** C1: whatever handlers the root logger holds before (none included), a
    call of [init_logging] whose file can be opened returns with exactly one
    handler attached, a file handler built by this call and so none of the
    earlier ones; a second call leaves exactly one handler again, the second
    call's own and not the first's. *)
Theorem init_logging_one_handler (env : Env) (filename : string) (lvl : Z)
    (fmt dfmt fmode : string) (s : LogState) (hn : string) :
  gethostname env = inr hn ->
  can_open env filename fmode = true ->
  exists s' h o,
    init_logging env filename lvl fmt dfmt fmode s = Ok tt s'
    /\ handlers s' = [h]
    /\ (length (objs s) <= h)%nat
    /\ objs s' !! h = Some o
    /\ cls o = FileHandlerC
    /\ baseFilename o = Some filename
    /\ forall filename2 lvl2 fmt2 dfmt2 fmode2,
         can_open env filename2 fmode2 = true ->
         exists s'' h2 o2,
           init_logging env filename2 lvl2 fmt2 dfmt2 fmode2 s' = Ok tt s''
           /\ handlers s'' = [h2]
           /\ h2 <> h
           /\ objs s'' !! h2 = Some o2
           /\ cls o2 = FileHandlerC
           /\ baseFilename o2 = Some filename2.
Proof.
  intros Hhost Hopen.
  destruct (init_logging_ok env filename lvl fmt dfmt fmode s hn Hhost Hopen)
    as (s' & h & Hrun & Hhs & Hnew & Hobj & _).
  exists s', h. eexists. repeat (split; [eassumption || reflexivity |]).
  intros filename2 lvl2 fmt2 dfmt2 fmode2 Hopen2.
  destruct (init_logging_ok env filename2 lvl2 fmt2 dfmt2 fmode2 s' hn Hhost Hopen2)
    as (s'' & h2 & Hrun2 & Hhs2 & Hnew2 & Hobj2 & _).
  exists s'', h2. eexists.
  split; [exact Hrun2 |]. split; [exact Hhs2 |].
  split; [| split; [exact Hobj2 | split; reflexivity]].
  apply lookup_lt_Some in Hobj. lia.
Qed.

Lemma init_logging_one_handler_witness :
  exists s' h o,
    init_logging alice_box1 "log.txt" logging.INFO "" default_datefmt "a"
      initialised = Ok tt s'
    /\ handlers s' = [h]
    /\ (length (objs initialised) <= h)%nat
    /\ objs s' !! h = Some o
    /\ cls o = FileHandlerC
    /\ baseFilename o = Some "log.txt"
    /\ forall filename2 lvl2 fmt2 dfmt2 fmode2,
         can_open alice_box1 filename2 fmode2 = true ->
         exists s'' h2 o2,
           init_logging alice_box1 filename2 lvl2 fmt2 dfmt2 fmode2 s'
           = Ok tt s''
           /\ handlers s'' = [h2]
           /\ h2 <> h
           /\ objs s'' !! h2 = Some o2
           /\ cls o2 = FileHandlerC
           /\ baseFilename o2 = Some filename2.
Proof.
  apply (init_logging_one_handler alice_box1 "log.txt" logging.INFO ""
           default_datefmt "a" initialised "box1"); reflexivity.
Defined.

(** Two calls in a row on a fresh interpreter, run. *)
Example init_logging_twice :
  handlers initialised = [1%nat]
  /\ handlers (run (init_logging alice_box1 "b.txt" logging.ERROR ""
                     default_datefmt "w") initialised) = [2%nat].
Proof. split; reflexivity. Qed.

(** C3 (as the code has it): called with the template of its own docstring
    and a date format of the caller, [init_logging] attaches a file handler
    with the caller's level, but with the default template, user and host
    name included, and the default date format. *)
Theorem init_logging_ignores_fmt :
  exists s',
    init_logging alice_box1 "log.txt" logging.WARNING
      "%(asctime)s %(message)s" "%H:%M" "a" pristine = Ok tt s'
    /\ handlers s' = [1%nat]
    /\ objs s' !! 1%nat
       = Some (file_handler_obj "log.txt" "a" logging.WARNING
                 {| _fmt := "%(asctime)s alice BOX1 %(message)s";
                    datefmt := Some "%d-%m-%Y %H:%M" |}).
Proof.
  exists (run (init_logging alice_box1 "log.txt" logging.WARNING
                 "%(asctime)s %(message)s" "%H:%M" "a") pristine).
  vm_compute. repeat split.
Qed.

(** C4: with an empty template, the template used is ["%(asctime)s "], the
    user's name, a space, the host's name in upper case and [" %(message)s"]:
    that is what the default computation gives, what [add_handler] sets on
    the handler, and what the handler attached by [init_logging] carries. *)
Theorem default_template_text (env : Env) (u hn : string) :
  USERNAME env = Some u ->
  gethostname env = inr hn ->
  let t := "%(asctime)s " +:+ u +:+ " " +:+ upper hn +:+ " %(message)s" in
  (forall s, default_fmt env s = Ok t s)
  /\ (forall h lvl dfmt s o,
        objs s !! h = Some o ->
        exists s' o',
          add_handler env h lvl "" dfmt s = Ok tt s'
          /\ objs s' !! h = Some o'
          /\ _fmt <$> formatter o' = Some t)
  /\ (forall filename lvl dfmt fmode s,
        can_open env filename fmode = true ->
        exists s' h o',
          init_logging env filename lvl "" dfmt fmode s = Ok tt s'
          /\ handlers s' = [h]
          /\ objs s' !! h = Some o'
          /\ _fmt <$> formatter o' = Some t).
Proof.
  intros Hu Hh t.
  assert (Ht : default_template (USERNAME env) hn = t) by (rewrite Hu; reflexivity).
  split; [| split].
  - intros s. rewrite <- Ht. apply default_fmt_ok. exact Hh.
  - intros h lvl dfmt s o Ho.
    exists (state_of (add_handler env h lvl "" dfmt s)). eexists.
    rewrite (add_handler_ok env h lvl "" dfmt s o hn Ho (fun _ => Hh)).
    split; [reflexivity |]. cbn [state_of objs].
    split; [apply list_lookup_insert_eq; eapply lookup_lt_Some; eauto |].
    cbn. rewrite Hu. reflexivity.
  - intros filename lvl dfmt fmode s Hopen.
    destruct (init_logging_ok env filename lvl "" dfmt fmode s hn Hh Hopen)
      as (s' & h & Hrun & Hhs & _ & Hobj & _).
    exists s', h. eexists. repeat (split; [eassumption |]).
    cbn. rewrite Hu. reflexivity.
Qed.

Lemma default_template_text_witness :
  let t := "%(asctime)s alice BOX1 %(message)s" in
  (forall s, default_fmt alice_box1 s = Ok t s)
  /\ (forall h lvl dfmt s o,
        objs s !! h = Some o ->
        exists s' o',
          add_handler alice_box1 h lvl "" dfmt s = Ok tt s'
          /\ objs s' !! h = Some o'
          /\ _fmt <$> formatter o' = Some t)
  /\ (forall filename lvl dfmt fmode s,
        can_open alice_box1 filename fmode = true ->
        exists s' h o',
          init_logging alice_box1 filename lvl "" dfmt fmode s = Ok tt s'
          /\ handlers s' = [h]
          /\ objs s' !! h = Some o'
          /\ _fmt <$> formatter o' = Some t).
Proof.
  apply (default_template_text alice_box1 "alice" "box1"); reflexivity.
Defined.

(** ** [ArcPyLogHandler.emit] *)

Lemma format_keeps_state (F : Formatter -> LogRecord -> exn + string)
    (self : ref) (record : LogRecord) (s : LogState) :
  state_of (ArcPyLogHandler.format F self record s) = s.
Proof.
  unfold ArcPyLogHandler.format, bind, deref.
  destruct (objs s !! self) as [h |]; [| reflexivity].
  destruct (F _ record); reflexivity.
Qed.

(** The whole effect of [emit]: one call is added to what ArcMap received. *)
Lemma emit_result (F : Formatter -> LogRecord -> exn + string)
    (self : ref) (record : LogRecord) (s : LogState) :
  ArcPyLogHandler.emit F self record s
  = Ok tt
      (set_arcpy_log
         (arcpy_log s ++
          [(if logging.ERROR <=? levelno record then ErrorChannel
            else if logging.WARNING <=? levelno record then WarningChannel
            else MessageChannel,
            match ArcPyLogHandler.format F self record s with
            | Ok m _ => m
            | Raise _ _ => msg record
            end)]) s).
Proof.
  unfold ArcPyLogHandler.emit, bind, try_except.
  pose proof (format_keeps_state F self record s) as Hs.
  destruct (ArcPyLogHandler.format F self record s) as [m s0 | e s0];
    cbn in Hs; subst s0; cbn [ret];
    destruct (logging.ERROR <=? levelno record);
    try destruct (logging.WARNING <=? levelno record); reflexivity.
Qed.

Lemma calls_to_snoc (c ch : Channel) (p : string) (l : list HostCall) :
  calls_to c (l ++ [(ch, p)])
  = (calls_to c l + if decide (ch = c) then 1 else 0)%nat.
Proof.
  unfold calls_to. rewrite filter_app, length_app. f_equal.
  rewrite filter_cons. cbn [fst]. destruct (decide (ch = c)); reflexivity.
Qed.

(** C2: [emit] hands every record to exactly one channel: one call is added
    to what ArcMap received, on the error channel when the level is at least
    [ERROR], else on the warning channel when it is at least [WARNING], else
    on the message channel; its text is the formatted message when
    formatting returns.  The other two channels receive nothing. *)
Theorem emit_routes_by_severity (F : Formatter -> LogRecord -> exn + string)
    (self : ref) (record : LogRecord) (s : LogState) :
  exists ch payload s',
    ArcPyLogHandler.emit F self record s = Ok tt s'
    /\ arcpy_log s' = arcpy_log s ++ [(ch, payload)]
    /\ (logging.ERROR <= levelno record -> ch = ErrorChannel)
    /\ (logging.WARNING <= levelno record < logging.ERROR ->
        ch = WarningChannel)
    /\ (levelno record < logging.WARNING -> ch = MessageChannel)
    /\ (forall m s0,
          ArcPyLogHandler.format F self record s = Ok m s0 -> payload = m)
    /\ calls_to ch (arcpy_log s') = S (calls_to ch (arcpy_log s))
    /\ (forall c, c <> ch ->
          calls_to c (arcpy_log s') = calls_to c (arcpy_log s)).
Proof.
  do 3 eexists. split; [apply emit_result |].
  cbn [arcpy_log set_arcpy_log]. split; [reflexivity |].
  unfold logging.ERROR, logging.WARNING.
  split; [| split; [| split; [| split; [| split]]]].
  - intros H. destruct (Z.leb_spec 40 (levelno record)); [reflexivity | lia].
  - intros H. destruct (Z.leb_spec 40 (levelno record)); [lia |].
    destruct (Z.leb_spec 30 (levelno record)); [reflexivity | lia].
  - intros H. destruct (Z.leb_spec 40 (levelno record)); [lia |].
    destruct (Z.leb_spec 30 (levelno record)); [lia | reflexivity].
  - intros m s0 Hf. rewrite Hf. reflexivity.
  - rewrite calls_to_snoc. rewrite decide_True by reflexivity. lia.
  - intros c Hc. rewrite calls_to_snoc. rewrite decide_False by congruence. lia.
Qed.

(** The levels of the library, routed. *)
Example emit_levels :
  let sent lvl :=
    arcpy_log (run (ArcPyLogHandler.emit PercentStyle.Formatter_format 0%nat
                      {| levelno := lvl; msg := "tile %s done";
                         args := ["7"]; asctime := "03-11-2026 09:15" |})
                   one_unattached) in
  sent logging.CRITICAL = [(ErrorChannel, "tile 7 done")]
  /\ sent logging.ERROR = [(ErrorChannel, "tile 7 done")]
  /\ sent logging.WARNING = [(WarningChannel, "tile 7 done")]
  /\ sent logging.INFO = [(MessageChannel, "tile 7 done")]
  /\ sent logging.DEBUG = [(MessageChannel, "tile 7 done")].
Proof. vm_compute. repeat split. Qed.

(** C5: when formatting the record raises, whatever the exception, [emit]
    still returns, and the one call it makes carries the record's raw
    message. *)
Theorem emit_format_failure (F : Formatter -> LogRecord -> exn + string)
    (self : ref) (record : LogRecord) (s s0 : LogState) (e : exn) :
  ArcPyLogHandler.format F self record s = Raise e s0 ->
  exists ch s',
    ArcPyLogHandler.emit F self record s = Ok tt s'
    /\ arcpy_log s' = arcpy_log s ++ [(ch, msg record)].
Proof.
  intros Hf. do 2 eexists. split; [apply emit_result |].
  rewrite Hf. reflexivity.
Qed.

Lemma emit_format_failure_witness :
  let record :=
    {| levelno := logging.ERROR; msg := "%s of %s tiles failed";
       args := ["3"]; asctime := "03-11-2026 09:15" |} in
  exists ch s',
    ArcPyLogHandler.emit PercentStyle.Formatter_format 0%nat record
      one_unattached = Ok tt s'
    /\ arcpy_log s'
       = arcpy_log one_unattached ++ [(ch, "%s of %s tiles failed")].
Proof.
  apply (emit_format_failure PercentStyle.Formatter_format 0%nat
           {| levelno := logging.ERROR; msg := "%s of %s tiles failed";
              args := ["3"]; asctime := "03-11-2026 09:15" |}
           one_unattached one_unattached TypeError).
  reflexivity.
Defined.

(** C7: [emit] changes nothing but what ArcMap received, to which it adds
    one call: every handler object, the backing stream of the handler itself
    included, is as before, and so are the registry and the root level. *)
Theorem emit_no_file_write (F : Formatter -> LogRecord -> exn + string)
    (self : ref) (record : LogRecord) (s : LogState) :
  exists c s',
    ArcPyLogHandler.emit F self record s = Ok tt s'
    /\ objs s' = objs s
    /\ handlers s' = handlers s
    /\ root_level s' = root_level s
    /\ arcpy_log s' = arcpy_log s ++ [c].
Proof.
  do 2 eexists. split; [apply emit_result |]. repeat split.
Qed.

(** The inherited [emit], on the same handler and record, does write. *)
Example base_emit_writes :
  let record :=
    {| levelno := logging.INFO; msg := "done"; args := [];
       asctime := "03-11-2026 09:15" |} in
  (flushed <$> objs (run (ArcPyLogHandler.base_emit PercentStyle.Formatter_format
                            alice_box1 0%nat record) one_unattached) !! 0%nat)
  = Some ["done" +:+ newline]
  /\ (flushed <$> objs (run (ArcPyLogHandler.emit PercentStyle.Formatter_format
                               0%nat record) one_unattached) !! 0%nat)
     = Some [].
Proof. vm_compute. split; reflexivity. Qed.

(** ** [add_handler] as a step on the registry *)

(** C6 (amended): for a handler object [h] that is not attached yet,
    [add_handler] returns with [h] appended to the registry; [h] has the
    given level and a formatter built from the template (the default one for
    an empty [fmt]) and the date format; every other object, so every
    handler attached before, is as it was; a further call with another
    unattached handler appends that one too. *)
Theorem add_handler_appends (env : Env) (h : ref) (lvl : Z) (fmt dfmt : string)
    (s : LogState) (o : Handler) (hn : string) :
  objs s !! h = Some o ->
  h ∉ handlers s ->
  (fmt = "" -> gethostname env = inr hn) ->
  exists s',
    add_handler env h lvl fmt dfmt s = Ok tt s'
    /\ handlers s' = handlers s ++ [h]
    /\ objs s' !! h
       = Some (set_formatter
                 (logging.mkFormatter
                    (if decide (fmt = "")
                     then default_template (USERNAME env) hn else fmt)
                    (Some dfmt))
                 (set_level lvl o))
    /\ (forall r, r <> h -> objs s' !! r = objs s !! r)
    /\ root_level s' = root_level s
    /\ arcpy_log s' = arcpy_log s
    /\ forall h2 lvl2 fmt2 dfmt2 o2,
         objs s !! h2 = Some o2 ->
         h2 <> h ->
         h2 ∉ handlers s ->
         (fmt2 = "" -> gethostname env = inr hn) ->
         exists s'',
           add_handler env h2 lvl2 fmt2 dfmt2 s' = Ok tt s''
           /\ handlers s'' = handlers s ++ [h; h2]
           /\ objs s'' !! h = objs s' !! h.
Proof.
  intros Ho Hnew Hfmt. eexists.
  split; [apply (add_handler_ok env h lvl fmt dfmt s o hn Ho Hfmt) |].
  cbn [handlers objs root_level arcpy_log].
  rewrite bool_decide_eq_false_2 by exact Hnew.
  assert (Hlt : (h < length (objs s))%nat) by (eapply lookup_lt_Some; eauto).
  split; [reflexivity |].
  split; [apply list_lookup_insert_eq; exact Hlt |].
  split; [intros r Hr; apply list_lookup_insert_ne; congruence |].
  split; [reflexivity |]. split; [reflexivity |].
  intros h2 lvl2 fmt2 dfmt2 o2 Ho2 Hne Hnew2 Hfmt2. eexists.
  split.
  { apply (add_handler_ok env h2 lvl2 fmt2 dfmt2 _ o2 hn); [| exact Hfmt2].
    cbn [objs]. rewrite list_lookup_insert_ne by congruence. exact Ho2. }
  cbn [handlers objs].
  rewrite bool_decide_eq_false_2.
  2: { intros Hin. apply elem_of_app in Hin as [Hin | Hin]; [tauto |].
       apply list_elem_of_singleton in Hin. congruence. }
  split; [rewrite <- app_assoc; reflexivity |].
  apply list_lookup_insert_ne. exact Hne.
Qed.

Lemma add_handler_appends_witness :
  exists s',
    add_handler alice_box1 2%nat logging.DEBUG "" default_datefmt
      (run (ArcPyLogHandler.new alice_box1 "arc.log" "a") initialised)
    = Ok tt s'
    /\ handlers s' = [1%nat; 2%nat].
Proof.
  destruct (add_handler_appends alice_box1 2%nat logging.DEBUG ""
              default_datefmt
              (run (ArcPyLogHandler.new alice_box1 "arc.log" "a") initialised)
              {| cls := ArcPyLogHandlerC; baseFilename := Some "arc.log";
                 mode := "a"; level := logging.NOTSET; formatter := None;
                 stream_open := true; pending := []; flushed := [] |}
              "box1")
    as (s' & Hrun & Hhs & _).
  - reflexivity.
  - apply (bool_decide_unpack _). vm_compute. exact I.
  - reflexivity.
  - exists s'. split; [exact Hrun | exact Hhs].
Defined.

(** C6, the claim as written fails for a handler that is attached already:
    the registry keeps its one entry instead of growing, and the attached
    handler itself gets a new level and a new formatter. *)
Lemma add_handler_attached_again :
  exists s',
    add_handler alice_box1 1%nat logging.ERROR "%(message)s" "%H:%M"
      initialised = Ok tt s'
    /\ handlers initialised = [1%nat]
    /\ handlers s' = [1%nat]
    /\ handlers s' <> handlers initialised ++ [1%nat]
    /\ level <$> objs initialised !! 1%nat = Some logging.INFO
    /\ level <$> objs s' !! 1%nat = Some logging.ERROR
    /\ objs s' !! 1%nat <> objs initialised !! 1%nat.
Proof.
  exists (run (add_handler alice_box1 1%nat logging.ERROR "%(message)s" "%H:%M")
            initialised).
  vm_compute. repeat split; discriminate.
Qed.

(** ** [_logging_is_active] *)

Lemma logging_is_active_run (s : LogState) :
  _logging_is_active s = Ok (bool_decide (0 < length (handlers s))%nat) s.
Proof. reflexivity. Qed.

(** C8: [_logging_is_active] returns true exactly when the registry holds
    at least one handler; it returns false on the fresh package, and true
    after one [add_handler], in whatever state that call was made. *)
Theorem logging_is_active_iff :
  (forall s, exists b,
      _logging_is_active s = Ok b s /\ (b = true <-> handlers s <> []))
  /\ _logging_is_active pristine = Ok false pristine
  /\ (forall env h lvl fmt dfmt s o hn,
        objs s !! h = Some o ->
        (fmt = "" -> gethostname env = inr hn) ->
        exists s',
          add_handler env h lvl fmt dfmt s = Ok tt s'
          /\ _logging_is_active s' = Ok true s').
Proof.
  split; [| split].
  - intros s. eexists. split; [apply logging_is_active_run |].
    rewrite bool_decide_eq_true. destruct (handlers s); cbn; split;
      intros H; try congruence; lia.
  - reflexivity.
  - intros env h lvl fmt dfmt s o hn Ho Hfmt. eexists.
    split; [apply (add_handler_ok env h lvl fmt dfmt s o hn Ho Hfmt) |].
    rewrite logging_is_active_run. cbn [handlers]. f_equal.
    apply bool_decide_eq_true_2.
    destruct (bool_decide (h ∈ handlers s)) eqn:E.
    + apply bool_decide_eq_true_1 in E. destruct (handlers s); [inversion E |].
      cbn. lia.
    + rewrite length_app. cbn. lia.
Qed.

Lemma logging_is_active_iff_witness :
  exists s',
    add_handler alice_box1 0%nat logging.INFO "" default_datefmt one_unattached
    = Ok tt s'
    /\ _logging_is_active s' = Ok true s'.
Proof.
  apply (proj2 (proj2 logging_is_active_iff) alice_box1 0%nat logging.INFO ""
           default_datefmt one_unattached
           {| cls := ArcPyLogHandlerC; baseFilename := Some "arc.log";
              mode := "a"; level := logging.NOTSET; formatter := None;
              stream_open := true; pending := []; flushed := [] |}
           "box1"); reflexivity.
Defined.

(** ** The environment cannot be read *)

Lemma init_logging_raises (env : Env) (filename : string) (lvl : Z)
    (dfmt fmode : string) (s : LogState) (e : exn) :
  gethostname env = inl e ->
  init_logging env filename lvl "" dfmt fmode s = Raise e s.
Proof.
  intros H. unfold init_logging. apply bind_Raise. cbn.
  apply default_fmt_raises. exact H.
Qed.

(** C9 (amended): a missing [USERNAME] does not abort: the default template
    then carries the text [None] where the user's name goes, and
    [add_handler] and [init_logging] return with it; a failure of
    [socket.gethostname()] is not caught, and both functions raise its
    exception when they build the default template. *)
Theorem missing_username_placeholder (env : Env) :
  (forall hn,
     USERNAME env = None ->
     gethostname env = inr hn ->
     let t := "%(asctime)s None " +:+ upper hn +:+ " %(message)s" in
     (forall s, default_fmt env s = Ok t s)
     /\ (forall h lvl dfmt s o,
           objs s !! h = Some o ->
           exists s' o',
             add_handler env h lvl "" dfmt s = Ok tt s'
             /\ objs s' !! h = Some o'
             /\ _fmt <$> formatter o' = Some t)
     /\ (forall filename lvl dfmt fmode s,
           can_open env filename fmode = true ->
           exists s' h o',
             init_logging env filename lvl "" dfmt fmode s = Ok tt s'
             /\ handlers s' = [h]
             /\ objs s' !! h = Some o'
             /\ _fmt <$> formatter o' = Some t))
  /\ (forall e,
        gethostname env = inl e ->
        (forall h lvl dfmt s,
           add_handler env h lvl "" dfmt s = Raise e s)
        /\ (forall filename lvl dfmt fmode s,
              init_logging env filename lvl "" dfmt fmode s = Raise e s)).
Proof.
  split.
  - intros hn Hu Hh t.
    assert (Ht : default_template (USERNAME env) hn = t)
      by (rewrite Hu; reflexivity).
    split; [| split].
    + intros s. rewrite <- Ht. apply default_fmt_ok. exact Hh.
    + intros h lvl dfmt s o Ho.
      exists (state_of (add_handler env h lvl "" dfmt s)). eexists.
      rewrite (add_handler_ok env h lvl "" dfmt s o hn Ho (fun _ => Hh)).
      split; [reflexivity |]. cbn [state_of objs].
      split; [apply list_lookup_insert_eq; eapply lookup_lt_Some; eauto |].
      cbn. rewrite Hu. reflexivity.
    + intros filename lvl dfmt fmode s Hopen.
      destruct (init_logging_ok env filename lvl "" dfmt fmode s hn Hh Hopen)
        as (s' & h & Hrun & Hhs & _ & Hobj & _).
      exists s', h. eexists. repeat (split; [eassumption |]).
      cbn. rewrite Hu. reflexivity.
  - intros e He. split.
    + intros. apply add_handler_raises. exact He.
    + intros. apply init_logging_raises. exact He.
Qed.

Lemma missing_username_placeholder_witness :
  default_fmt no_username pristine
  = Ok "%(asctime)s None BOX1 %(message)s" pristine.
Proof.
  apply (proj1 (missing_username_placeholder no_username) "box1");
    reflexivity.
Defined.

(** C9, the claim as written fails for the host name: when
    [socket.gethostname()] raises, [add_handler] and [init_logging] raise
    too, and no handler is attached. *)
Lemma hostname_failure_aborts :
  add_handler no_hostname 0%nat logging.INFO "" default_datefmt one_unattached
  = Raise socket_error one_unattached
  /\ init_logging no_hostname "log.txt" logging.INFO "" default_datefmt "a"
       pristine
     = Raise socket_error pristine
  /\ handlers one_unattached = []
  /\ handlers pristine = [].
Proof. vm_compute. repeat split. Qed.

(** ** [flush_and_close_logger] *)

Lemma keeps_bind {A B} (c : M A) (k : A -> M B) :
  keeps c -> (forall a, keeps (k a)) -> keeps (bind c k).
Proof.
  intros Hc Hk s. unfold bind. destruct (Hc s) as [H1 H2].
  destruct (c s) as [a s1 | e s1]; cbn in *.
  - destruct (Hk a s1) as [H3 H4]. split; congruence.
  - split; assumption.
Qed.

Lemma keeps_update (r : ref) (f : Handler -> Handler) : keeps (update r f).
Proof.
  intros s. unfold update. destruct (objs s !! r); cbn; [| tauto].
  split; [reflexivity | apply length_insert].
Qed.

Lemma keeps_try_pass_io (c : M unit) : keeps c -> keeps (try_pass_io c).
Proof.
  intros Hc s. unfold try_pass_io. specialize (Hc s).
  destruct (c s) as [a s1 | e s1]; [exact Hc |]. destruct e; exact Hc.
Qed.

Lemma keeps_for_each {A} (body : A -> M unit) (l : list A) :
  (forall x, keeps (body x)) -> keeps (for_each l body).
Proof.
  intros Hb. induction l as [| x l IH]; cbn [for_each].
  - intros s. cbn. tauto.
  - apply keeps_bind; [apply Hb | intros _; exact IH].
Qed.

Lemma keeps_flush_close (h : ref) :
  keeps (try_pass_io (let! _ := logging.flush h in logging.close h)).
Proof.
  apply keeps_try_pass_io, keeps_bind; [apply keeps_update |].
  intros _. apply keeps_update.
Qed.

Lemma keeps_shutdown : keeps logging.shutdown.
Proof.
  intros s. unfold logging.shutdown.
  apply (keeps_for_each _ _ keeps_flush_close).
Qed.

Lemma keeps_flush_and_close_logger : keeps flush_and_close_logger.
Proof.
  unfold flush_and_close_logger. apply keeps_bind.
  - intros s. cbn. tauto.
  - intros hs. apply keeps_bind; [| intros _; apply keeps_shutdown].
    apply keeps_for_each. intros h. apply keeps_update.
Qed.

(** A loop whose body returns on every object of the store returns. *)
Lemma for_each_returns (body : ref -> M unit) (l : list ref) :
  (forall r, keeps (body r)) ->
  (forall r s, (r < length (objs s))%nat -> exists s', body r s = Ok tt s') ->
  forall s,
    List.Forall (fun r => (r < length (objs s))%nat) l ->
    exists s', for_each l body s = Ok tt s'.
Proof.
  intros Hk Hb. induction l as [| x l IH]; intros s Hall.
  - exists s. reflexivity.
  - inversion Hall as [| ? ? Hx Hl]; subst.
    destruct (Hb x s Hx) as [s1 Hs1]. cbn [for_each].
    rewrite (bind_Ok _ _ _ _ _ Hs1). apply IH.
    destruct (Hk x s) as [_ Hlen]. rewrite Hs1 in Hlen. cbn in Hlen.
    rewrite Hlen. exact Hl.
Qed.

Lemma update_returns (r : ref) (f : Handler -> Handler) (s : LogState) :
  (r < length (objs s))%nat -> exists s', update r f s = Ok tt s'.
Proof.
  intros Hlt. destruct (lookup_lt_is_Some_2 _ _ Hlt) as [o Ho].
  eexists. apply (update_ok _ _ _ _ Ho).
Qed.

Lemma flush_close_returns (r : ref) (s : LogState) :
  (r < length (objs s))%nat ->
  exists s',
    try_pass_io (let! _ := logging.flush r in logging.close r) s = Ok tt s'.
Proof.
  intros Hlt. destruct (update_returns r logging.flush_obj s Hlt) as [s1 H1].
  assert (Hlt1 : (r < length (objs s1))%nat).
  { destruct (keeps_update r logging.flush_obj s) as [_ Hlen].
    unfold logging.flush in *. rewrite H1 in Hlen. cbn in Hlen. lia. }
  destruct (update_returns r logging.close_obj s1 Hlt1) as [s2 H2].
  exists s2. unfold try_pass_io.
  rewrite (bind_Ok _ _ _ _ _ H1). unfold logging.close. rewrite H2.
  reflexivity.
Qed.

Lemma shutdown_returns (s : LogState) :
  exists s', logging.shutdown s = Ok tt s'.
Proof.
  unfold logging.shutdown.
  apply (for_each_returns _ _ keeps_flush_close flush_close_returns).
  apply List.Forall_forall. intros r Hr.
  apply in_rev, in_seq in Hr. lia.
Qed.

(** C10: [flush_and_close_logger] leaves the registry as it finds it: the
    list of attached handlers is the same after the call, in every state;
    when the registry refers to objects of the store the call returns, and
    [_logging_is_active] is still true afterwards if a handler was attached
    before. *)
Theorem flush_and_close_keeps_handlers (s : LogState) :
  handlers (state_of (flush_and_close_logger s)) = handlers s
  /\ (wf s = true ->
      exists s',
        flush_and_close_logger s = Ok tt s'
        /\ handlers s' = handlers s
        /\ (handlers s <> [] -> _logging_is_active s' = Ok true s')).
Proof.
  split; [apply keeps_flush_and_close_logger |].
  intros Hwf.
  assert (Hret : exists s', flush_and_close_logger s = Ok tt s').
  { unfold flush_and_close_logger.
    rewrite (bind_Ok _ _ s s (handlers s)) by reflexivity.
    destruct (for_each_returns logging.flush (handlers s)) with (s := s)
      as [s1 H1].
    - intros r. apply keeps_update.
    - intros r s0. apply update_returns.
    - apply List.Forall_forall. intros r Hr. unfold wf in Hwf.
      rewrite forallb_forall in Hwf. apply Nat.ltb_lt, Hwf, Hr.
    - rewrite (bind_Ok _ _ _ _ _ H1). apply shutdown_returns. }
  destruct Hret as [s' Hs']. exists s'. split; [exact Hs' |].
  destruct (keeps_flush_and_close_logger s) as [Hh _].
  rewrite Hs' in Hh. cbn in Hh. split; [exact Hh |].
  intros Hne. rewrite logging_is_active_run, Hh. f_equal.
  apply bool_decide_eq_true_2. destruct (handlers s); [congruence | cbn; lia].
Qed.

Lemma flush_and_close_keeps_handlers_witness :
  exists s',
    flush_and_close_logger initialised = Ok tt s'
    /\ handlers s' = handlers initialised
    /\ (handlers initialised <> [] -> _logging_is_active s' = Ok true s').
Proof.
  apply (proj2 (flush_and_close_keeps_handlers initialised)). reflexivity.
Defined.

(** After the call the handler is still attached, flushed and closed. *)
Example flush_and_close_run :
  let s' := run flush_and_close_logger initialised in
  handlers s' = [1%nat]
  /\ stream_open <$> objs s' !! 1%nat = Some false
  /\ stream_open <$> objs initialised !! 1%nat = Some true.
Proof. vm_compute. repeat split. Qed.

(** The states the module's functions build are well formed. *)
Lemma wf_init_logging (env : Env) (filename : string) (lvl : Z)
    (fmt dfmt fmode : string) (s s' : LogState) :
  init_logging env filename lvl fmt dfmt fmode s = Ok tt s' -> wf s' = true.
Proof.
  intros Hrun.
  destruct (gethostname env) as [e | hn] eqn:Hh.
  - exfalso. revert Hrun. unfold init_logging.
    destruct (decide (fmt = "")) as [E | E].
    + rewrite (bind_Raise _ _ s s e); [discriminate |].
      apply default_fmt_raises, Hh.
    + rewrite (bind_Ok _ _ s s fmt) by reflexivity.
      destruct (basicConfig_ok logging.NOTSET s) as (s1 & Hbc & _).
      rewrite (bind_Ok _ _ _ _ _ Hbc).
      rewrite (bind_Ok _ _ s1 s1 (handlers s1)) by reflexivity.
      rewrite (bind_Ok _ _ _ _ _ (removal_loop_empties _ s1 eq_refl)).
      unfold logging.FileHandler, logging.open_handler.
      destruct (can_open env filename fmode).
      * erewrite bind_Ok by reflexivity.
        rewrite (add_handler_raises _ _ _ _ _ e Hh). discriminate.
      * erewrite bind_Raise by reflexivity. discriminate.
  - destruct (can_open env filename fmode) eqn:Hopen.
    + destruct (init_logging_ok env filename lvl fmt dfmt fmode s hn Hh Hopen)
        as (s2 & h & Hrun2 & Hhs & _ & Hobj & _).
      rewrite Hrun in Hrun2. injection Hrun2 as <-.
      unfold wf. rewrite Hhs. cbn. rewrite andb_true_r.
      apply Nat.ltb_lt. eapply lookup_lt_Some; eauto.
    + destruct (init_logging_open_fails env filename lvl fmt dfmt fmode s hn Hh Hopen)
        as (s2 & Hrun2 & _). congruence.
Qed.

(** * Further properties of the module *)

(** ** The removal loop on its own *)

(** The loop of lines 79 and 80, run on any registry (a handler listed
    twice included), raises no [IndexError] and ends with an empty registry;
    the objects, the root level and what ArcMap received are not touched. *)
Theorem removal_loop_never_fails (s : LogState) :
  exists s',
    for_each (range_down (Z.of_nat (length (handlers s)) - 1) (-1))
      (fun i =>
         let! hs := get_handlers in
         let! h := lift (py_index hs i) in
         logging.removeHandler h) s = Ok tt s'
    /\ handlers s' = []
    /\ objs s' = objs s
    /\ root_level s' = root_level s
    /\ arcpy_log s' = arcpy_log s.
Proof.
  eexists. split; [apply removal_loop_empties; reflexivity |].
  repeat split.
Qed.

(** ** What [init_logging] leaves behind *)

Lemma basicConfig_root (lvl : Z) (s : LogState) :
  exists s1,
    logging.basicConfig lvl s = Ok tt s1
    /\ root_level s1
       = (if decide (length (handlers s) = 0%nat) then lvl else root_level s).
Proof.
  unfold logging.basicConfig, bind, get_handlers.
  destruct (decide (length (handlers s) = 0%nat)) as [E | E].
  - unfold logging.StreamHandler, alloc, logging.setFormatter.
    erewrite update_ok by apply alloc_lookup.
    unfold logging.addHandler.
    match goal with
    | |- context [bool_decide ?P] => destruct (bool_decide P)
    end; eexists; (split; [reflexivity |]); reflexivity.
  - exists s. split; reflexivity.
Qed.

(** [init_logging] gives its [level] to the handler, never to the root
    logger: the root level becomes [NOTSET] when the registry was empty
    (the one case in which [basicConfig] acts) and stays what it was
    otherwise. *)
Theorem init_logging_root_level (env : Env) (filename : string) (lvl : Z)
    (fmt dfmt fmode : string) (s : LogState) (hn : string) :
  gethostname env = inr hn ->
  can_open env filename fmode = true ->
  exists s',
    init_logging env filename lvl fmt dfmt fmode s = Ok tt s'
    /\ root_level s'
       = (if decide (handlers s = []) then logging.NOTSET else root_level s).
Proof.
  intros Hhost Hopen. unfold init_logging.
  assert (Hres : exists t, (if decide (fmt = "") then default_fmt env else ret fmt) s
                 = Ok t s).
  { destruct (decide (fmt = "")); eexists; [apply default_fmt_ok; eauto | reflexivity]. }
  destruct Hres as [t Hres]. rewrite (bind_Ok _ _ _ _ _ Hres).
  destruct (basicConfig_root logging.NOTSET s) as (s1 & Hbc & Hroot).
  rewrite (bind_Ok _ _ _ _ _ Hbc).
  rewrite (bind_Ok _ _ s1 s1 (handlers s1)) by reflexivity.
  rewrite (bind_Ok _ _ _ _ _ (removal_loop_empties _ s1 eq_refl)).
  erewrite bind_Ok.
  2: { unfold logging.FileHandler, logging.open_handler. rewrite Hopen.
       reflexivity. }
  erewrite add_handler_ok with (hn := hn); [| apply alloc_lookup | auto].
  eexists. split; [reflexivity |]. cbn [root_level set_objs set_handlers].
  rewrite Hroot. destruct (handlers s); reflexivity.
Qed.

Lemma init_logging_root_level_witness :
  exists s',
    init_logging alice_box1 "b.txt" logging.ERROR "" default_datefmt "a"
      (set_root_level logging.WARNING initialised) = Ok tt s'
    /\ root_level s' = logging.WARNING.
Proof.
  apply (init_logging_root_level alice_box1 "b.txt" logging.ERROR ""
           default_datefmt "a" (set_root_level logging.WARNING initialised)
           "box1"); reflexivity.
Defined.





(** The arguments [fmt] and [datefmt] of [init_logging] have no effect:
    two calls that differ only in them return the same state. *)
Theorem init_logging_same_for_any_fmt (env : Env) (filename : string)
    (lvl : Z) (fmt1 dfmt1 fmt2 dfmt2 fmode : string) (s : LogState)
    (hn : string) :
  gethostname env = inr hn ->
  init_logging env filename lvl fmt1 dfmt1 fmode s
  = init_logging env filename lvl fmt2 dfmt2 fmode s.
Proof.
  intros Hhost. unfold init_logging.
  assert (Hres : forall fmt, exists t,
             (if decide (fmt = "") then default_fmt env else ret fmt) s = Ok t s).
  { intros fmt. destruct (decide (fmt = "")); eexists;
      [apply default_fmt_ok; eauto | reflexivity]. }
  destruct (Hres fmt1) as [t1 H1]. destruct (Hres fmt2) as [t2 H2].
  rewrite (bind_Ok _ _ _ _ _ H1), (bind_Ok _ _ _ _ _ H2). reflexivity.
Qed.

Lemma init_logging_same_for_any_fmt_witness :
  init_logging alice_box1 "log.txt" logging.INFO "%(message)s" "%H:%M" "a"
    pristine
  = init_logging alice_box1 "log.txt" logging.INFO "" default_datefmt "a"
      pristine.
Proof.
  apply (init_logging_same_for_any_fmt alice_box1 "log.txt" logging.INFO
           "%(message)s" "%H:%M" "" default_datefmt "a" pristine "box1").
  reflexivity.
Defined.

(** With a template of the caller and a host name that cannot be read,
    [init_logging] still raises, and late: the registry has been emptied
    and the file opened by then, and no handler is attached. *)
Theorem init_logging_late_hostname_failure (env : Env) (filename : string)
    (lvl : Z) (fmt dfmt fmode : string) (s : LogState) (e : exn) :
  fmt <> "" ->
  gethostname env = inl e ->
  can_open env filename fmode = true ->
  exists s' o,
    init_logging env filename lvl fmt dfmt fmode s = Raise e s'
    /\ handlers s' = []
    /\ (length (objs s) < length (objs s'))%nat
    /\ last (objs s') = Some o
    /\ baseFilename o = Some filename
    /\ stream_open o = true.
Proof.
  intros Hfmt Hhost Hopen. unfold init_logging.
  rewrite (bind_Ok _ _ s s fmt).
  2: { destruct (decide (fmt = "")); [contradiction | reflexivity]. }
  destruct (basicConfig_ok logging.NOTSET s) as (s1 & Hbc & _ & extra & Hobjs).
  rewrite (bind_Ok _ _ _ _ _ Hbc).
  rewrite (bind_Ok _ _ s1 s1 (handlers s1)) by reflexivity.
  rewrite (bind_Ok _ _ _ _ _ (removal_loop_empties _ s1 eq_refl)).
  erewrite bind_Ok.
  2: { unfold logging.FileHandler, logging.open_handler. rewrite Hopen.
       reflexivity. }
  rewrite (add_handler_raises _ _ _ _ _ e Hhost).
  do 2 eexists. split; [reflexivity |].
  cbn [handlers objs set_objs set_handlers].
  split; [reflexivity |].
  split; [rewrite Hobjs, !length_app; cbn; lia |].
  split; [apply last_snoc |]. split; reflexivity.
Qed.

Lemma init_logging_late_hostname_failure_witness :
  exists s' o,
    init_logging no_hostname "log.txt" logging.INFO "%(message)s" "%H:%M" "a"
      initialised = Raise socket_error s'
    /\ handlers s' = []
    /\ (length (objs initialised) < length (objs s'))%nat
    /\ last (objs s') = Some o
    /\ baseFilename o = Some "log.txt"
    /\ stream_open o = true.
Proof.
  apply (init_logging_late_hostname_failure no_hostname "log.txt"
           logging.INFO "%(message)s" "%H:%M" "a" initialised socket_error);
    [discriminate | reflexivity | reflexivity].
Defined.

(** ** [add_handler], again *)

Lemma configure_twice (f : Formatter) (lvl : Z) (o : Handler) :
  set_formatter f (set_level lvl (set_formatter f (set_level lvl o)))
  = set_formatter f (set_level lvl o).
Proof. reflexivity. Qed.

(** Attaching the same handler a second time with the same arguments
    changes nothing: the second call returns the state the first one left. *)
Theorem add_handler_idempotent (env : Env) (h : ref) (lvl : Z)
    (fmt dfmt : string) (s : LogState) (o : Handler) (hn : string) :
  objs s !! h = Some o ->
  (fmt = "" -> gethostname env = inr hn) ->
  exists s',
    add_handler env h lvl fmt dfmt s = Ok tt s'
    /\ add_handler env h lvl fmt dfmt s' = Ok tt s'.
Proof.
  intros Ho Hfmt. eexists.
  split; [apply (add_handler_ok env h lvl fmt dfmt s o hn Ho Hfmt) |].
  assert (Hlt : (h < length (objs s))%nat) by (eapply lookup_lt_Some; eauto).
  erewrite add_handler_ok with (hn := hn); [| | exact Hfmt].
  2: { cbn [objs]. apply list_lookup_insert_eq. exact Hlt. }
  cbn [objs handlers root_level arcpy_log].
  rewrite configure_twice, list_insert_insert_eq.
  f_equal. f_equal.
  destruct (bool_decide (h ∈ handlers s)) eqn:E.
  - rewrite E. reflexivity.
  - rewrite bool_decide_eq_true_2; [reflexivity |].
    apply elem_of_app. right. apply list_elem_of_singleton. reflexivity.
Qed.

Lemma add_handler_idempotent_witness :
  exists s',
    add_handler alice_box1 0%nat logging.DEBUG "" default_datefmt
      one_unattached = Ok tt s'
    /\ add_handler alice_box1 0%nat logging.DEBUG "" default_datefmt s'
       = Ok tt s'.
Proof.
  apply (add_handler_idempotent alice_box1 0%nat logging.DEBUG ""
           default_datefmt one_unattached
           {| cls := ArcPyLogHandlerC; baseFilename := Some "arc.log";
              mode := "a"; level := logging.NOTSET; formatter := None;
              stream_open := true; pending := []; flushed := [] |}
           "box1"); reflexivity.
Defined.



(** ** What [flush_and_close_logger] does to the handlers *)

Lemma flush_obj_idem (o : Handler) :
  logging.flush_obj (logging.flush_obj o) = logging.flush_obj o.
Proof.
  unfold logging.flush_obj. destruct (stream_open o) eqn:E; cbn; [| rewrite E];
    [rewrite app_nil_r |]; reflexivity.
Qed.

Lemma shut_obj_flush (o : Handler) :
  shut_obj (logging.flush_obj o) = shut_obj o.
Proof. unfold shut_obj. rewrite flush_obj_idem. reflexivity. Qed.

Lemma shut_obj_idem (o : Handler) : shut_obj (shut_obj o) = shut_obj o.
Proof.
  unfold shut_obj, logging.close_obj, logging.flush_obj.
  destruct o as [c bf m l f [] p fl]; destruct c; cbn;
    rewrite ?app_nil_r; reflexivity.
Qed.

Lemma set_objs_twice (a b : list Handler) (s : LogState) :
  set_objs a (set_objs b s) = set_objs a s.
Proof. reflexivity. Qed.

(** A loop that applies an idempotent change [g] to the objects it is given:
    each object listed is changed once, however often it is listed, and the
    others are left alone. *)
Lemma for_each_update_idem (g : Handler -> Handler) (body : ref -> M unit) :
  (forall o, g (g o) = g o) ->
  (forall r s o, objs s !! r = Some o ->
                 body r s = Ok tt (set_objs (<[r := g o]> (objs s)) s)) ->
  forall (l : list ref) (s : LogState),
    List.Forall (fun r => (r < length (objs s))%nat) l ->
    for_each l body s
    = Ok tt (set_objs
               (imap (fun i o => if bool_decide (i ∈ l) then g o else o)
                     (objs s)) s).
Proof.
  intros Hidem Hbody l. induction l as [| x l IH]; intros s Hall.
  - cbn [for_each ret]. f_equal. destruct s as [os hs rl al].
    unfold set_objs. cbn. f_equal.
    apply list_eq. intros i. rewrite list_lookup_imap.
    destruct (os !! i); reflexivity.
  - inversion Hall as [| ? ? Hx Hl]; subst.
    destruct (lookup_lt_is_Some_2 _ _ Hx) as [o Ho].
    cbn [for_each]. rewrite (bind_Ok _ _ _ _ _ (Hbody x s o Ho)).
    rewrite IH.
    2: { cbn [objs set_objs]. rewrite length_insert. exact Hl. }
    rewrite set_objs_twice. f_equal. f_equal. cbn [objs set_objs].
    apply list_eq. intros i. rewrite !list_lookup_imap.
    destruct (decide (i = x)) as [-> | Hne].
    + rewrite list_lookup_insert_eq by exact Hx. rewrite Ho.
      cbn [fmap option_fmap option_map].
      repeat case_bool_decide; rewrite ?Hidem; try reflexivity.
      all: exfalso;
        match goal with
        | H : ~ (_ ∈ _ :: _) |- _ => apply H; constructor
        end.
    + rewrite list_lookup_insert_ne by congruence.
      destruct (objs s !! i) as [oi |]; [| reflexivity].
      cbn [fmap option_fmap option_map]. f_equal.
      repeat case_bool_decide; try reflexivity; exfalso.
      * match goal with
        | H : ~ (_ ∈ _ :: _) |- _ => apply H; constructor; assumption
        end.
      * match goal with
        | H : _ ∈ _ :: _ |- _ =>
            apply elem_of_cons in H as [? | ?]; [congruence | tauto]
        end.
Qed.

Lemma flush_close_exact (r : ref) (s : LogState) (o : Handler) :
  objs s !! r = Some o ->
  try_pass_io (let! _ := logging.flush r in logging.close r) s
  = Ok tt (set_objs (<[r := shut_obj o]> (objs s)) s).
Proof.
  intros Ho. unfold try_pass_io, logging.flush, logging.close.
  rewrite (bind_Ok _ _ _ _ _ (update_ok r logging.flush_obj o s Ho)).
  erewrite update_ok.
  2: { cbn [objs set_objs]. apply list_lookup_insert_eq.
       eapply lookup_lt_Some; eauto. }
  cbn [objs set_objs]. rewrite list_insert_insert_eq. reflexivity.
Qed.

Lemma shutdown_exact (s : LogState) :
  logging.shutdown s = Ok tt (set_objs (map shut_obj (objs s)) s).
Proof.
  unfold logging.shutdown.
  rewrite (for_each_update_idem shut_obj _ shut_obj_idem flush_close_exact).
  2: { apply List.Forall_forall. intros r Hr. apply in_rev, in_seq in Hr. lia. }
  f_equal. f_equal. apply list_eq. intros i.
  rewrite list_lookup_imap, list_lookup_fmap.
  destruct (objs s !! i) as [o |] eqn:Ho; [| reflexivity]. cbn.
  rewrite bool_decide_eq_true_2; [reflexivity |].
  apply list_elem_of_In. rewrite <- in_rev. apply in_seq.
  apply lookup_lt_Some in Ho. lia.
Qed.

Lemma flush_and_close_exact (s : LogState) :
  wf s = true ->
  flush_and_close_logger s = Ok tt (set_objs (map shut_obj (objs s)) s).
Proof.
  intros Hwf. unfold flush_and_close_logger.
  rewrite (bind_Ok _ _ s s (handlers s)) by reflexivity.
  erewrite bind_Ok.
  2: { apply (for_each_update_idem logging.flush_obj logging.flush
                flush_obj_idem).
       - intros r s0 o Ho. apply update_ok. exact Ho.
       - apply List.Forall_forall. intros r Hr. unfold wf in Hwf.
         rewrite forallb_forall in Hwf. apply Nat.ltb_lt, Hwf, Hr. }
  rewrite shutdown_exact, set_objs_twice. f_equal. f_equal.
  cbn [objs set_objs]. apply list_eq. intros i.
  rewrite !list_lookup_fmap, list_lookup_imap.
  destruct (objs s !! i) as [o |]; [| reflexivity]. cbn.
  destruct (bool_decide (i ∈ handlers s)); [rewrite shut_obj_flush |];
    reflexivity.
Qed.

(** After [flush_and_close_logger] every handler is flushed and, unless it
    is the console handler, closed, and no line is lost: a handler whose
    stream was open has delivered its pending lines, in order, behind what
    it had delivered before; level, formatter and file name are kept. *)
Theorem flush_and_close_delivers (s : LogState) (r : ref) (o : Handler) :
  wf s = true ->
  objs s !! r = Some o ->
  exists s' o',
    flush_and_close_logger s = Ok tt s'
    /\ objs s' !! r = Some o'
    /\ (stream_open o = true ->
        flushed o' = flushed o ++ pending o /\ pending o' = [])
    /\ (stream_open o = false ->
        flushed o' = flushed o /\ pending o' = pending o)
    /\ (cls o <> StreamHandlerC -> stream_open o' = false)
    /\ (cls o = StreamHandlerC -> stream_open o' = stream_open o)
    /\ level o' = level o
    /\ formatter o' = formatter o
    /\ baseFilename o' = baseFilename o
    /\ cls o' = cls o.
Proof.
  intros Hwf Ho. exists (set_objs (map shut_obj (objs s)) s), (shut_obj o).
  split; [apply flush_and_close_exact, Hwf |].
  split.
  { cbn [objs set_objs].
    change (map shut_obj (objs s)) with (shut_obj <$> objs s).
    rewrite list_lookup_fmap. unfold ref in *. rewrite Ho. reflexivity. }
  unfold shut_obj, logging.close_obj, logging.flush_obj.
  destruct o as [c bf m l f [] p fl]; destruct c; cbn;
    rewrite ?app_nil_r; repeat split; intros; congruence.
Qed.

Lemma flush_and_close_delivers_witness :
  exists s' o',
    flush_and_close_logger initialised = Ok tt s'
    /\ objs s' !! 1%nat = Some o'
    /\ stream_open o' = false.
Proof.
  destruct (flush_and_close_delivers initialised 1%nat
              (file_handler_obj "log.txt" "a" logging.INFO
                 {| _fmt := "%(asctime)s alice BOX1 %(message)s";
                    datefmt := Some "%d-%m-%Y %H:%M" |}))
    as (s' & o' & Hrun & Hobj & _ & _ & Hclosed & _).
  - reflexivity.
  - reflexivity.
  - exists s', o'. split; [exact Hrun |]. split; [exact Hobj |].
    apply Hclosed. discriminate.
Defined.

(** A second [flush_and_close_logger] right after the first changes
    nothing. *)
Theorem flush_and_close_twice (s : LogState) :
  wf s = true ->
  exists s',
    flush_and_close_logger s = Ok tt s'
    /\ flush_and_close_logger s' = Ok tt s'.
Proof.
  intros Hwf. eexists. split; [apply flush_and_close_exact, Hwf |].
  rewrite flush_and_close_exact.
  2: { unfold wf in *. cbn [objs handlers set_objs].
       rewrite length_map. exact Hwf. }
  rewrite set_objs_twice. f_equal. f_equal. cbn [objs set_objs].
  rewrite map_map. apply map_ext. intros o. apply shut_obj_idem.
Qed.

Lemma flush_and_close_twice_witness :
  exists s',
    flush_and_close_logger initialised = Ok tt s'
    /\ flush_and_close_logger s' = Ok tt s'.
Proof.
  apply (flush_and_close_twice initialised). reflexivity.
Defined.

(** ** A sequence of records through [emit] *)

Lemma call_of_set_arcpy_log (F : Formatter -> LogRecord -> exn + string)
    (self : ref) (l : list HostCall) (s : LogState) (record : LogRecord) :
  call_of F self (set_arcpy_log l s) record = call_of F self s record.
Proof.
  unfold call_of, ArcPyLogHandler.format, bind, deref. cbn [objs set_arcpy_log].
  destruct (objs s !! self) as [h |]; [| reflexivity].
  cbn [lift]. destruct (F _ record); reflexivity.
Qed.

Lemma for_each_emit_exact (F : Formatter -> LogRecord -> exn + string)
    (self : ref) (records : list LogRecord) (s : LogState) :
  for_each records (ArcPyLogHandler.emit F self) s
  = Ok tt (set_arcpy_log (arcpy_log s ++ map (call_of F self s) records) s).
Proof.
  revert s. induction records as [| r rs IH]; intros s.
  - cbn [for_each map ret]. rewrite app_nil_r. destruct s; reflexivity.
  - cbn [for_each map]. rewrite (bind_Ok _ _ _ _ _ (emit_result F self r s)).
    rewrite IH. cbn [arcpy_log set_arcpy_log].
    rewrite <- app_assoc. cbn [app].
    f_equal. unfold set_arcpy_log at 1. cbn [objs handlers root_level set_arcpy_log].
    unfold set_arcpy_log. f_equal. f_equal. f_equal.
    apply map_ext. intros r'.
    apply (call_of_set_arcpy_log F self _ s r').
Qed.

(** Records sent through [emit] one after the other arrive in ArcMap in
    that order, one call per record, none dropped and none repeated, each
    on the channel of its own level; the handler objects, the registry and
    the root level stay as they were. *)
Theorem emit_sequence (F : Formatter -> LogRecord -> exn + string)
    (self : ref) (records : list LogRecord) (s : LogState) :
  exists s',
    for_each records (ArcPyLogHandler.emit F self) s = Ok tt s'
    /\ arcpy_log s' = arcpy_log s ++ map (call_of F self s) records
    /\ map fst (arcpy_log s')
       = map fst (arcpy_log s)
         ++ map (fun r => channel_of (levelno r)) records
    /\ objs s' = objs s
    /\ handlers s' = handlers s
    /\ root_level s' = root_level s.
Proof.
  eexists. split; [apply for_each_emit_exact |].
  cbn [arcpy_log objs handlers root_level set_arcpy_log].
  split; [reflexivity |]. split; [| repeat split].
  rewrite map_app, map_map. reflexivity.
Qed.

(** ** The registry invariant *)

Lemma init_logging_Ok_inv (env : Env) (filename : string) (lvl : Z)
    (fmt dfmt fmode : string) (s s' : LogState) :
  init_logging env filename lvl fmt dfmt fmode s = Ok tt s' ->
  exists h, handlers s' = [h] /\ (h < length (objs s'))%nat.
Proof.
  intros Hrun.
  destruct (gethostname env) as [e | hn] eqn:Hh.
  - exfalso. revert Hrun. unfold init_logging.
    destruct (decide (fmt = "")) as [E | E].
    + rewrite (bind_Raise _ _ s s e); [discriminate |].
      apply default_fmt_raises, Hh.
    + rewrite (bind_Ok _ _ s s fmt) by reflexivity.
      destruct (basicConfig_ok logging.NOTSET s) as (s1 & Hbc & _).
      rewrite (bind_Ok _ _ _ _ _ Hbc).
      rewrite (bind_Ok _ _ s1 s1 (handlers s1)) by reflexivity.
      rewrite (bind_Ok _ _ _ _ _ (removal_loop_empties _ s1 eq_refl)).
      unfold logging.FileHandler, logging.open_handler.
      destruct (can_open env filename fmode).
      * erewrite bind_Ok by reflexivity.
        rewrite (add_handler_raises _ _ _ _ _ e Hh). discriminate.
      * erewrite bind_Raise by reflexivity. discriminate.
  - destruct (can_open env filename fmode) eqn:Hopen.
    + destruct (init_logging_ok env filename lvl fmt dfmt fmode s hn Hh Hopen)
        as (s2 & h & Hrun2 & Hhs & _ & Hobj & _).
      rewrite Hrun in Hrun2. injection Hrun2 as <-.
      exists h. split; [exact Hhs |]. eapply lookup_lt_Some; eauto.
    + destruct (init_logging_open_fails env filename lvl fmt dfmt fmode s hn Hh Hopen)
        as (s2 & Hrun2 & _). congruence.
Qed.

Lemma add_handler_Ok_inv (env : Env) (h : ref) (lvl : Z) (fmt dfmt : string)
    (s s' : LogState) (o : Handler) :
  objs s !! h = Some o ->
  add_handler env h lvl fmt dfmt s = Ok tt s' ->
  handlers s'
  = (if bool_decide (h ∈ handlers s) then handlers s else handlers s ++ [h])
  /\ length (objs s') = length (objs s).
Proof.
  intros Ho Hrun.
  assert (Hhn : exists hn, fmt = "" -> gethostname env = inr hn).
  { destruct (decide (fmt = "")) as [-> | Hne].
    - destruct (gethostname env) as [e | hn] eqn:Hh; [| eauto].
      rewrite (add_handler_raises _ _ _ _ _ e Hh) in Hrun. discriminate.
    - exists "". contradiction. }
  destruct Hhn as [hn Hhn].
  rewrite (add_handler_ok env h lvl fmt dfmt s o hn Ho Hhn) in Hrun.
  injection Hrun as <-. cbn [handlers objs]. split; [reflexivity |].
  apply length_insert.
Qed.

(** The registry stays sound: after every function of the module that
    returns, each reference of the registry is a handler object and none is
    listed twice.  [init_logging] gives such a registry from any state; the
    other functions keep it. *)
Theorem registry_ok_preserved :
  registry_ok pristine
  /\ (forall env filename lvl fmt dfmt fmode s s',
        init_logging env filename lvl fmt dfmt fmode s = Ok tt s' ->
        registry_ok s')
  /\ (forall env h lvl fmt dfmt s s' o,
        registry_ok s ->
        objs s !! h = Some o ->
        add_handler env h lvl fmt dfmt s = Ok tt s' ->
        registry_ok s')
  /\ (forall s s',
        registry_ok s ->
        flush_and_close_logger s = Ok tt s' ->
        registry_ok s')
  /\ (forall F self record s s',
        registry_ok s ->
        ArcPyLogHandler.emit F self record s = Ok tt s' ->
        registry_ok s').
Proof.
  unfold registry_ok, wf. split; [| split; [| split; [| split]]].
  - split; [reflexivity | constructor].
  - intros env filename lvl fmt dfmt fmode s s' Hrun.
    destruct (init_logging_Ok_inv _ _ _ _ _ _ _ _ Hrun) as (h & Hhs & Hlt).
    rewrite Hhs. split.
    + cbn. rewrite andb_true_r. apply Nat.ltb_lt. exact Hlt.
    + apply NoDup_singleton.
  - intros env h lvl fmt dfmt s s' o [Hwf Hnd] Ho Hrun.
    destruct (add_handler_Ok_inv _ _ _ _ _ _ _ _ Ho Hrun) as [Hhs Hlen].
    rewrite Hhs, Hlen.
    destruct (bool_decide (h ∈ handlers s)) eqn:E; [split; assumption |].
    apply bool_decide_eq_false_1 in E. split.
    + rewrite forallb_app. apply andb_true_iff. split; [exact Hwf |].
      cbn. rewrite andb_true_r.
      apply Nat.ltb_lt. eapply lookup_lt_Some; eauto.
    + apply NoDup_app. split; [exact Hnd |]. split; [| apply NoDup_singleton].
      intros x Hx Hx'. apply list_elem_of_singleton in Hx'. congruence.
  - intros s s' [Hwf Hnd] Hrun.
    rewrite (flush_and_close_exact s Hwf) in Hrun. injection Hrun as <-.
    cbn [handlers objs set_objs]. rewrite length_map. split; assumption.
  - intros F self record s s' [Hwf Hnd] Hrun.
    rewrite emit_result in Hrun. injection Hrun as <-.
    cbn [handlers objs set_arcpy_log]. split; assumption.
Qed.

Lemma registry_ok_preserved_witness : registry_ok initialised.
Proof.
  apply (proj1 (proj2 registry_ok_preserved) alice_box1 "log.txt"
           logging.INFO "" default_datefmt "a" pristine initialised).
  reflexivity.
Defined.

(** ** Both sinks in one run *)

Lemma wf_grow (s : LogState) (n : nat) :
  wf s = true ->
  (length (objs s) <= n)%nat ->
  forallb (fun r => (r <? n)%nat) (handlers s) = true.
Proof.
  unfold wf. intros Hwf Hle. rewrite forallb_forall in *.
  intros r Hr. specialize (Hwf r Hr).
  apply Nat.ltb_lt in Hwf. apply Nat.ltb_lt. lia.
Qed.

Lemma wf_not_fresh (s : LogState) :
  wf s = true -> length (objs s) ∉ handlers s.
Proof.
  unfold wf. intros Hwf Hin. rewrite forallb_forall in Hwf.
  apply list_elem_of_In in Hin. specialize (Hwf _ Hin).
  apply Nat.ltb_lt in Hwf. lia.
Qed.

(** [init_logging], then an ArcPy handler built and attached with
    [add_handler]: the registry holds exactly the two, the file handler
    first, each with its own level and both with the default template. *)
Theorem file_and_arcpy_two_sinks (env : Env) (logfile arcfile : string)
    (lvl arclvl : Z) (s : LogState) (hn : string) :
  gethostname env = inr hn ->
  can_open env logfile "a" = true ->
  can_open env arcfile "a" = true ->
  exists s' hf ha o1 o2,
    file_and_arcpy env logfile arcfile lvl arclvl s = Ok ha s'
    /\ handlers s' = [hf; ha]
    /\ hf <> ha
    /\ objs s' !! hf = Some o1
    /\ objs s' !! ha = Some o2
    /\ cls o1 = FileHandlerC /\ level o1 = lvl
    /\ cls o2 = ArcPyLogHandlerC /\ level o2 = arclvl
    /\ formatter o2 = formatter o1
    /\ formatter o1
       = Some (logging.mkFormatter (default_template (USERNAME env) hn)
                 (Some default_datefmt)).
Proof.
  intros Hhost Hlog Harc. unfold file_and_arcpy.
  destruct (init_logging_ok env logfile lvl "" default_datefmt "a" s hn Hhost Hlog)
    as (s1 & hf & Hrun & Hhs & _ & Hobj & _).
  rewrite (bind_Ok _ _ _ _ _ Hrun).
  erewrite bind_Ok.
  2: { unfold ArcPyLogHandler.new, logging.open_handler. rewrite Harc.
       reflexivity. }
  erewrite bind_Ok.
  2: { apply add_handler_ok with (hn := hn); [apply alloc_lookup | auto]. }
  assert (Hlt : (hf < length (objs s1))%nat) by (eapply lookup_lt_Some; eauto).
  assert (Hne : hf <> length (objs s1)) by lia.
  do 5 eexists. split; [reflexivity |].
  cbn [handlers objs set_objs]. rewrite insert_last, Hhs.
  rewrite bool_decide_eq_false_2.
  2: { intros Hin. apply list_elem_of_singleton in Hin. lia. }
  split; [reflexivity |]. split; [exact Hne |].
  split; [apply lookup_app_l_Some; exact Hobj |].
  split; [apply list_lookup_middle; reflexivity |].
  repeat split.
Qed.

Lemma file_and_arcpy_two_sinks_witness :
  exists s' hf ha o1 o2,
    file_and_arcpy alice_box1 "log.txt" "arc.log" logging.INFO logging.WARNING
      pristine = Ok ha s'
    /\ handlers s' = [hf; ha]
    /\ hf <> ha
    /\ objs s' !! hf = Some o1
    /\ objs s' !! ha = Some o2
    /\ cls o1 = FileHandlerC /\ level o1 = logging.INFO
    /\ cls o2 = ArcPyLogHandlerC /\ level o2 = logging.WARNING
    /\ formatter o2 = formatter o1
    /\ formatter o1
       = Some (logging.mkFormatter (default_template (Some "alice") "box1")
                 (Some default_datefmt)).
Proof.
  apply (file_and_arcpy_two_sinks alice_box1 "log.txt" "arc.log" logging.INFO
           logging.WARNING pristine "box1"); reflexivity.
Defined.

(** The backing file of an ArcPy handler stays empty: built, attached, fed
    any records and shut down with [flush_and_close_logger], the handler has
    written nothing to its stream, which ends closed, while ArcMap received
    one call per record. *)
Theorem arcpy_session_file_empty (F : Formatter -> LogRecord -> exn + string)
    (env : Env) (arcfile fmode : string) (lvl : Z) (fmt dfmt : string)
    (records : list LogRecord) (s : LogState) (hn : string) :
  wf s = true ->
  can_open env arcfile fmode = true ->
  (fmt = "" -> gethostname env = inr hn) ->
  exists h s' o,
    arcpy_session F env arcfile fmode lvl fmt dfmt records s = Ok h s'
    /\ h ∈ handlers s'
    /\ objs s' !! h = Some o
    /\ baseFilename o = Some arcfile
    /\ flushed o = []
    /\ pending o = []
    /\ stream_open o = false
    /\ length (arcpy_log s') = (length (arcpy_log s) + length records)%nat.
Proof.
  intros Hwf Hopen Hfmt. unfold arcpy_session.
  erewrite bind_Ok.
  2: { unfold ArcPyLogHandler.new, logging.open_handler. rewrite Hopen.
       reflexivity. }
  erewrite bind_Ok.
  2: { apply add_handler_ok with (hn := hn); [apply alloc_lookup | exact Hfmt]. }
  rewrite (bind_Ok _ _ _ _ _ (for_each_emit_exact F _ records _)).
  cbn [handlers objs set_objs arcpy_log root_level set_arcpy_log].
  rewrite insert_last.
  rewrite bool_decide_eq_false_2 by (apply wf_not_fresh, Hwf).
  erewrite bind_Ok.
  2: { apply flush_and_close_exact. unfold wf.
       cbn [handlers objs set_arcpy_log].
       rewrite forallb_app, length_app. apply andb_true_iff. split.
       - apply (wf_grow s _ Hwf). lia.
       - cbn. rewrite andb_true_r. apply Nat.ltb_lt. lia. }
  do 3 eexists. split; [reflexivity |].
  cbn [handlers objs set_objs arcpy_log set_arcpy_log].
  split; [apply elem_of_app; right; apply list_elem_of_singleton; reflexivity |].
  split.
  { change (map shut_obj ?l) with (shut_obj <$> l).
    rewrite list_lookup_fmap, list_lookup_middle by reflexivity. reflexivity. }
  rewrite length_app, length_map. repeat split.
Qed.

Lemma arcpy_session_file_empty_witness :
  exists h s' o,
    arcpy_session PercentStyle.Formatter_format alice_box1 "arc.log" "a"
      logging.INFO "" default_datefmt
      [{| levelno := logging.ERROR; msg := "tile %s failed"; args := ["7"];
          asctime := "03-11-2026 09:15" |};
       {| levelno := logging.INFO; msg := "done"; args := [];
          asctime := "03-11-2026 09:16" |}]
      initialised = Ok h s'
    /\ h ∈ handlers s'
    /\ objs s' !! h = Some o
    /\ baseFilename o = Some "arc.log"
    /\ flushed o = []
    /\ pending o = []
    /\ stream_open o = false
    /\ length (arcpy_log s') = (length (arcpy_log initialised) + 2)%nat.
Proof.
  apply (arcpy_session_file_empty PercentStyle.Formatter_format alice_box1
           "arc.log" "a" logging.INFO "" default_datefmt
           [{| levelno := logging.ERROR; msg := "tile %s failed";
               args := ["7"]; asctime := "03-11-2026 09:15" |};
            {| levelno := logging.INFO; msg := "done"; args := [];
               asctime := "03-11-2026 09:16" |}]
           initialised "box1"); reflexivity.
Defined.
